(** * gen_spleen: the Spleen 8x16 font-table generator

    A shallow embedding of [tools/gen_spleen.py] and the properties of its
    two parsers, of the table builder and of the emitter.

    Conventions of the model.
    - Text is a [string] whose characters are the code points 0..255.
    - A file system ([files]) is a finite map from the string form of a
      path to the decoded text of the regular file found there: every path
      that exists in it can be read as text, and the output file can be
      opened for writing.
    - A disk ([Disk.disk]) also holds what cannot be read as text: a
      directory, a file whose bytes do not decode, a file without read
      permission.  There [read_text] raises on such a path, and so do both
      parsers.  A file system is the disk whose nodes are all text files
      ([Disk.of_files]), and on it the parsers of the disk are those of the
      file system.  Every directory on the way to a path can be searched,
      so that [exists] itself does not fail.
    - Python integers are [Z]; a [dict] keyed by integers is a [gmap Z].
    - An exception is an explicit [Raise] result. *)

From Stdlib Require Import ZArith NArith Ascii String Hexadecimal.
From stdpp Require Import base option list gmap strings.

Local Open Scope string_scope.
Local Open Scope list_scope.
Local Open Scope Z_scope.

(** ** Results of fallible code *)

Inductive exit_arg :=
  | ExitCode (n : Z)
  | ExitMsg (msg : string).

Inductive exn :=
  | SystemExit (arg : exit_arg)
  | FileNotFoundError (path : string)
  | IsADirectoryError (path : string)
  | PermissionError (path : string)
  | UnicodeDecodeError
  | ValueError
  | IndexError.

Inductive result (A : Type) :=
  | Ok (a : A)
  | Raise (e : exn).
Arguments Ok {A} a.
Arguments Raise {A} e.

Definition rbind {A B} (r : result A) (k : A -> result B) : result B :=
  match r with
  | Ok a => k a
  | Raise e => Raise e
  end.

Notation "x <~ r ;; k" := (rbind r (fun x => k))
  (at level 100, r at next level, right associativity).

(** [try: ... except Exception: ...]; [SystemExit] is not an [Exception]. *)
Definition try_except {A} (r : result A) (handler : result A) : result A :=
  match r with
  | Ok a => Ok a
  | Raise (SystemExit a) => Raise (SystemExit a)
  | Raise _ => handler
  end.

Fixpoint mapM {A B} (f : A -> result B) (l : list A) : result (list B) :=
  match l with
  | [] => Ok []
  | x :: l' => y <~ f x ;; ys <~ mapM f l' ;; Ok (y :: ys)
  end.

(** A [for] loop whose body may [break]. *)
Inductive flow (S : Type) :=
  | Next (s : S)
  | Break (s : S).
Arguments Next {S} s.
Arguments Break {S} s.

Fixpoint for_each {S A} (body : S -> A -> result (flow S)) (s : S) (l : list A)
  : result S :=
  match l with
  | [] => Ok s
  | x :: l' =>
      match body s x with
      | Raise e => Raise e
      | Ok (Break s') => Ok s'
      | Ok (Next s') => for_each body s' l'
      end
  end.

(** ** The string built-ins the program uses *)

Module Py.

Definition ord (c : ascii) : N := N_of_ascii c.

(** [str.isspace] on one character, which is also the class [\s] of [re]. *)
Definition isspace (c : ascii) : bool :=
  let n := ord c in
  ((9 <=? n) && (n <=? 13) || (28 <=? n) && (n <=? 32)
   || (n =? 133) || (n =? 160))%N.

(** The line boundaries of [str.splitlines]. *)
Definition islinebreak (c : ascii) : bool :=
  let n := ord c in
  ((10 <=? n) && (n <=? 13) || (28 <=? n) && (n <=? 30) || (n =? 133))%N.

Fixpoint lstrip (s : string) : string :=
  match s with
  | String c s' => if isspace c then lstrip s' else s
  | EmptyString => EmptyString
  end.

Fixpoint rstrip (s : string) : string :=
  match s with
  | EmptyString => EmptyString
  | String c s' =>
      match rstrip s' with
      | EmptyString => if isspace c then EmptyString else String c EmptyString
      | r => String c r
      end
  end.

Definition strip (s : string) : string := lstrip (rstrip s).

Definition startswith (s p : string) : bool := String.prefix p s.

(** [s.splitlines()]: a carriage return directly followed by a line feed
    is one boundary, and no empty last line is produced. *)
Fixpoint splitlines_from (cur s : string) : list string :=
  match s with
  | EmptyString => if String.eqb cur "" then [] else [cur]
  | String c s' =>
      if Ascii.eqb c "013" then
        match s' with
        | String "010" s'' => cur :: splitlines_from "" s''
        | _ => cur :: splitlines_from "" s'
        end
      else if islinebreak c then cur :: splitlines_from "" s'
      else splitlines_from (cur +:+ String c "") s'
  end.

Definition splitlines (s : string) : list string := splitlines_from "" s.

(** [s.split()]: the maximal runs of characters that are not whitespace. *)
Fixpoint split_from (cur s : string) : list string :=
  match s with
  | EmptyString => if String.eqb cur "" then [] else [cur]
  | String c s' =>
      if isspace c then
        if String.eqb cur "" then split_from "" s'
        else cur :: split_from "" s'
      else split_from (cur +:+ String c "") s'
  end.

Definition split (s : string) : list string := split_from "" s.

(** Indexing a list: [l[i]] for [0 <= i]. *)
Definition getitem {A} (l : list A) (i : nat) : result A :=
  match l !! i with
  | Some x => Ok x
  | None => Raise IndexError
  end.

(** [l[a:b]] for [0 <= a <= b]. *)
Definition slice {A} (a b : nat) (l : list A) : list A :=
  take (b - a) (drop a l).

(** The value of a digit of [int(s, base)]: 0-9, then a-z or A-Z. *)
Definition digit_value (c : ascii) : option Z :=
  let n := ord c in
  if ((48 <=? n) && (n <=? 57))%N then Some (Z.of_N (n - 48))
  else if ((97 <=? n) && (n <=? 122))%N then Some (Z.of_N (n - 87))
  else if ((65 <=? n) && (n <=? 90))%N then Some (Z.of_N (n - 55))
  else None.

(** The digit loop of [int]: at least one digit, single underscores
    between digits only.  [prev_us] says the previous character was an
    underscore, [seen] that a digit was read. *)
Fixpoint int_digits (base acc : Z) (seen prev_us : bool) (s : string)
  : option Z :=
  match s with
  | EmptyString => if seen && negb prev_us then Some acc else None
  | String c s' =>
      if Ascii.eqb c "_" then
        if prev_us || negb seen then None
        else int_digits base acc seen true s'
      else
        match digit_value c with
        | Some d =>
            if d <? base then int_digits base (acc * base + d) true false s'
            else None
        | None => None
        end
  end.

(** After the sign, base 16 accepts [0x]/[0X] and base 2 accepts
    [0b]/[0B], each followed by at most one underscore. *)
Definition skip_prefix (base : Z) (s : string) : string :=
  match s with
  | String "0" (String p rest) =>
      if ((base =? 16) && (Ascii.eqb p "x" || Ascii.eqb p "X"))
         || ((base =? 2) && (Ascii.eqb p "b" || Ascii.eqb p "B"))
      then match rest with
           | String "_" rest' => rest'
           | _ => rest
           end
      else s
  | _ => s
  end.

(** The number of digit characters of a text: all but its underscores. *)
Fixpoint digit_count (s : string) : nat :=
  match s with
  | EmptyString => O
  | String c s' => ((if Ascii.eqb c "_" then 0 else 1) + digit_count s')%nat
  end.

(** The cap on the digits of a number text: for a base that is not a power
    of two the interpreter (3.11 and later, default setting) rejects a text
    of more than 4300 digits. *)
Definition MAX_STR_DIGITS : nat := 4300.

Definition int_unsigned (base : Z) (s : string) : option Z :=
  let body := skip_prefix base s in
  if negb (Z.land base (base - 1) =? 0)
     && (MAX_STR_DIGITS <? digit_count body)%nat
  then None
  else int_digits base 0 false false body.

(** [int(s, base)] for base 2, 10 or 16 on a string without surrounding
    whitespace, which is all the program passes: a [split()] token or the
    text a pattern matched. *)
Definition int (s : string) (base : Z) : result Z :=
  let signed :=
    match s with
    | String "+" s' => int_unsigned base s'
    | String "-" s' => Z.opp <$> int_unsigned base s'
    | _ => int_unsigned base s
    end in
  match signed with
  | Some v => Ok v
  | None => Raise ValueError
  end.

(** [str.lower] on one character. *)
Definition lower_char (c : ascii) : ascii :=
  let n := ord c in
  if ((65 <=? n) && (n <=? 90)
      || (192 <=? n) && (n <=? 222) && negb (n =? 215))%N
  then ascii_of_N (n + 32) else c.

Fixpoint lower (s : string) : string :=
  match s with
  | EmptyString => EmptyString
  | String c s' => String (lower_char c) (lower s')
  end.

(** [sep.join(l)] *)
Fixpoint join (sep : string) (l : list string) : string :=
  match l with
  | [] => ""
  | [x] => x
  | x :: l' => x +:+ sep +:+ join sep l'
  end.

Fixpoint upper_hex (u : Hexadecimal.uint) : string :=
  match u with
  | Nil => ""
  | D0 u' => String "0" (upper_hex u')
  | D1 u' => String "1" (upper_hex u')
  | D2 u' => String "2" (upper_hex u')
  | D3 u' => String "3" (upper_hex u')
  | D4 u' => String "4" (upper_hex u')
  | D5 u' => String "5" (upper_hex u')
  | D6 u' => String "6" (upper_hex u')
  | D7 u' => String "7" (upper_hex u')
  | D8 u' => String "8" (upper_hex u')
  | D9 u' => String "9" (upper_hex u')
  | Da u' => String "A" (upper_hex u')
  | Db u' => String "B" (upper_hex u')
  | Dc u' => String "C" (upper_hex u')
  | Dd u' => String "D" (upper_hex u')
  | De u' => String "E" (upper_hex u')
  | Df u' => String "F" (upper_hex u')
  end.

(** [format(n, '02X')]: upper-case hexadecimal, zero-filled to width 2,
    the sign counting towards the width. *)
Definition format_02X (n : Z) : string :=
  let digits := upper_hex (N.to_hex_uint (Z.abs_N n)) in
  if n <? 0 then "-" +:+ digits
  else if (String.length digits <? 2)%nat then "0" +:+ digits
  else digits.

End Py.


(** ** Paths and files *)

(** [pathlib.Path] with the POSIX rules: a path is its root and the
    components that are neither empty nor a single dot. *)
Module pathlib.

Record Path := { root : string; tail : list string }.

(** [s.split('/')] *)
Fixpoint split_sep_from (cur s : string) : list string :=
  match s with
  | EmptyString => [cur]
  | String c s' =>
      if Ascii.eqb c "/" then cur :: split_sep_from "" s'
      else split_sep_from (cur +:+ String c "") s'
  end.

(** Exactly two leading slashes are kept as a root of their own. *)
Definition splitroot (p : string) : string * string :=
  match p with
  | String "/" (String "/" (String "/" r)) => ("/", String "/" (String "/" r))
  | String "/" (String "/" r) => ("//", r)
  | String "/" r => ("/", r)
  | _ => ("", p)
  end.

Definition kept (x : string) : bool :=
  negb (String.eqb x "") && negb (String.eqb x ".").

(** [Path(s)] *)
Definition of_string (s : string) : Path :=
  let '(rt, rel) := splitroot s in
  {| root := rt; tail := filter (fun x => Is_true (kept x)) (split_sep_from "" rel) |}.

(** [str(p)] *)
Definition str (p : Path) : string :=
  let s := root p +:+ Py.join "/" (tail p) in
  if String.eqb s "" then "." else s.

(** [p.name] *)
Definition name (p : Path) : string := List.last (tail p) "".

(** [s.rfind(c)], [None] standing for -1. *)
Fixpoint rfind (c : ascii) (s : string) : option nat :=
  match s with
  | EmptyString => None
  | String a s' =>
      match rfind c s' with
      | Some i => Some (S i)
      | None => if Ascii.eqb a c then Some O else None
      end
  end.

(** [p.suffix]: from the last dot of the name, unless that dot is the
    first or the last character of the name. *)
Definition suffix (p : Path) : string :=
  let nm := name p in
  match rfind "." nm with
  | Some i =>
      if ((0 <? i) && (i <? String.length nm - 1))%nat
      then String.substring i (String.length nm - i) nm
      else ""
  | None => ""
  end.

End pathlib.

Abbreviation Path := pathlib.Path.
Abbreviation files := (gmap string string).

(** [path.exists()] *)
Definition path_exists (fs : files) (path : Path) : bool :=
  bool_decide (is_Some (fs !! pathlib.str path)).

(** [path.read_text()] *)
Definition read_text (fs : files) (path : Path) : result string :=
  match fs !! pathlib.str path with
  | Some text => Ok text
  | None => Raise (FileNotFoundError (pathlib.str path))
  end.

(** ** tools/gen_spleen.py *)

Abbreviation glyph := (list Z).

Definition ASM_LABEL : string := "spleen:".

Definition is_bin (c : ascii) : bool := Ascii.eqb c "0" || Ascii.eqb c "1".

(** [ROW_RE.match(line)], the pattern being [^\s*db\s*([01]{8})b]; the
    result is [m.group(1)].  Whitespace, [d] and the binary digits are
    disjoint, so the greedy match is the only one. *)
Definition ROW_RE_match (line : string) : option string :=
  match Py.lstrip line with
  | String "d" (String "b" rest) =>
      match Py.lstrip rest with
      | String c0 (String c1 (String c2 (String c3 (String c4 (String c5
          (String c6 (String c7 (String "b" _)))))))) =>
          if forallb is_bin [c0; c1; c2; c3; c4; c5; c6; c7]
          then Some (string_of_list_ascii [c0; c1; c2; c3; c4; c5; c6; c7])
          else None
      | _ => None
      end
  | _ => None
  end.

Record asm_state := { in_table : bool; rows : list Z }.

(** The body of the loop of [parse_asm]. *)
Definition parse_asm_body (st : asm_state) (line : string)
  : result (flow asm_state) :=
  if negb (in_table st) then
    if Py.startswith (Py.strip line) ASM_LABEL
    then Ok (Next {| in_table := true; rows := rows st |})
    else Ok (Next st)
  else
    match ROW_RE_match line with
    | Some g1 =>
        v <~ Py.int g1 2 ;;
        let rows' := rows st ++ [v] in
        if (length rows' =? 256 * 16)%nat
        then Ok (Break {| in_table := true; rows := rows' |})
        else Ok (Next {| in_table := true; rows := rows' |})
    | None => Ok (Next st)
    end.

Definition parse_asm_lines (lines : list string) : result (option (list glyph)) :=
  st <~ for_each parse_asm_body {| in_table := false; rows := [] |} lines ;;
  if negb (length (rows st) =? 256 * 16)%nat then Ok None
  else Ok (Some (map (fun i => Py.slice (i * 16) ((i + 1) * 16) (rows st))
                     (seq 0 256))).

Definition parse_asm (fs : files) (path : Path) : result (option (list glyph)) :=
  if negb (path_exists fs path) then Ok None
  else
    text <~ read_text fs path ;;
    parse_asm_lines (Py.splitlines text).

Definition is_hex (c : ascii) : bool :=
  let n := Py.ord c in
  ((48 <=? n) && (n <=? 57) || (65 <=? n) && (n <=? 70)
   || (97 <=? n) && (n <=? 102))%N.

(** [re.fullmatch(r'[0-9A-Fa-f]{2}', line)] *)
Definition fullmatch_hex2 (line : string) : bool :=
  match line with
  | String a (String b EmptyString) => is_hex a && is_hex b
  | _ => false
  end.

Record bdf_state := {
  glyphs : gmap Z glyph;
  enc : option Z;
  collecting : bool;
  bitmap_rows : list string
}.

(** [while len(rows) < 16: rows.append(0)]; sixteen turns are enough. *)
Fixpoint pad_rows (fuel : nat) (rs : list Z) : list Z :=
  match fuel with
  | O => rs
  | S fuel' => if (length rs <? 16)%nat then pad_rows fuel' (rs ++ [0]) else rs
  end.

(** The glyph built at [ENDCHAR] from the collected row texts. *)
Definition end_glyph (collected : list string) : result glyph :=
  rs <~ mapM (fun r => v <~ Py.int r 16 ;; Ok (Z.land v 255))
             (Py.slice 0 16 collected) ;;
  Ok (pad_rows 16 rs).

(** The body of the loop of [parse_bdf]. *)
Definition parse_bdf_body (st : bdf_state) (raw : string)
  : result (flow bdf_state) :=
  let line := Py.strip raw in
  if Py.startswith line "ENCODING " then
    e <~ try_except
           (tok <~ Py.getitem (Py.split line) 1 ;;
            v <~ Py.int tok 10 ;;
            Ok (Some v))
           (Ok None) ;;
    Ok (Next {| glyphs := glyphs st; enc := e;
                collecting := collecting st; bitmap_rows := bitmap_rows st |})
  else if String.eqb line "BITMAP" then
    Ok (Next {| glyphs := glyphs st; enc := enc st;
                collecting := true; bitmap_rows := [] |})
  else if String.eqb line "ENDCHAR" then
    gs <~ match enc st with
          | Some e =>
              if collecting st
              then g <~ end_glyph (bitmap_rows st) ;; Ok (<[e := g]> (glyphs st))
              else Ok (glyphs st)
          | None => Ok (glyphs st)
          end ;;
    Ok (Next {| glyphs := gs; enc := None;
                collecting := false; bitmap_rows := [] |})
  else if collecting st then
    if fullmatch_hex2 line
    then Ok (Next {| glyphs := glyphs st; enc := enc st;
                     collecting := collecting st;
                     bitmap_rows := bitmap_rows st ++ [line] |})
    else Ok (Next st)
  else Ok (Next st).

Definition bdf_init : bdf_state :=
  {| glyphs := ∅; enc := None; collecting := false; bitmap_rows := [] |}.

Definition parse_bdf_lines (lines : list string) : result (gmap Z glyph) :=
  st <~ for_each parse_bdf_body bdf_init lines ;;
  Ok (glyphs st).

Definition parse_bdf (fs : files) (path : Path) : result (gmap Z glyph) :=
  text <~ read_text fs path ;;
  parse_bdf_lines (Py.splitlines text).

(** Truth value of [asm_fallback]: [None] and the empty list are false. *)
Definition truthy (o : option (list glyph)) : bool :=
  match o with
  | Some (_ :: _) => true
  | _ => false
  end.

(** One turn of [for cp in range(256)]: the glyph appended for [cp]. *)
Definition table_entry (bdf_glyphs : gmap Z glyph)
    (asm_fallback : option (list glyph)) (cp : nat) : result glyph :=
  match bdf_glyphs !! Z.of_nat cp with
  | Some g => Ok g
  | None =>
      match asm_fallback with
      | Some t =>
          if truthy asm_fallback && (cp <? length t)%nat
          then Py.getitem t cp
          else Ok (replicate 16 0)
      | None => Ok (replicate 16 0)
      end
  end.

(** [maybe_asm] is [None] where the source's argument is false; a [Path]
    is always true. *)
Definition build_glyph_table (fs : files) (src_path : Path)
    (maybe_asm : option Path) : result (list glyph * string) :=
  let ext := Py.lower (pathlib.suffix src_path) in
  if String.eqb ext ".bdf" then
    bdf_glyphs <~ parse_bdf fs src_path ;;
    asm_fallback <~ match maybe_asm with
                    | Some p => parse_asm fs p
                    | None => Ok None
                    end ;;
    table <~ mapM (table_entry bdf_glyphs asm_fallback) (seq 0 256) ;;
    Ok (table,
        pathlib.str src_path +:+ " (BDF)"
          +:+ (if truthy asm_fallback then " + ASM fallback" else ""))
  else if String.eqb ext ".asm" then
    table <~ parse_asm fs src_path ;;
    match table with
    | None => Raise (SystemExit (ExitMsg "Failed to parse ASM font table"))
    | Some t => Ok (t, pathlib.str src_path +:+ " (ASM)")
    end
  else
    Raise (SystemExit (ExitMsg ("Unsupported source extension: " +:+ ext))).

Definition LF : string := String "010" "".

(** [HEADER.format(source=source_desc)] *)
Definition HEADER (source : string) : string :=
  "/* Auto-generated Spleen 8x16 font table" +:+ LF +:+
  " * Source: " +:+ source +:+ LF +:+
  " * Generation: tools/gen_spleen.py (BSD 2-Clause upstream font)" +:+ LF +:+
  " * Do not edit manually. */" +:+ LF.

Definition DQ : string := String "034" "".

(** One line of the array: the index comment and the bytes of the glyph. *)
Definition emit_row (idx : nat) (g : glyph) : string :=
  "    /* 0x" +:+ Py.format_02X (Z.of_nat idx) +:+ " */ {"
  +:+ Py.join ", " (map (fun b => "0x" +:+ Py.format_02X b) g)
  +:+ "}," +:+ LF.

(** What [emit_c] writes to the file. *)
Definition emit_text (table : list glyph) (source_desc : string) : string :=
  HEADER source_desc
  +:+ "#include " +:+ DQ +:+ "../aurora.h" +:+ DQ +:+ LF
  +:+ "#include " +:+ DQ +:+ "../include/font.h" +:+ DQ +:+ LF +:+ LF
  +:+ "const unsigned char g_Spleen8x16[AURORA_FONT_GLYPHS][AURORA_FONT_HEIGHT] = {"
  +:+ LF
  +:+ String.concat "" (imap emit_row table)
  +:+ "};" +:+ LF +:+ "BOOL FontInitialize(void){ return TRUE; }" +:+ LF.

Record world := { disk : files; stdout : string }.

(** [emit_c]: the file is opened for writing, which replaces it. *)
Definition emit_c (table : list glyph) (out_path : Path) (source_desc : string)
    (w : world) : world :=
  {| disk := <[pathlib.str out_path := emit_text table source_desc]> (disk w);
     stdout := stdout w |}.

Definition USAGE : string :=
  "Usage: gen_spleen.py <spleen.{asm|bdf}> <out.c> [fallback_asm]".

Definition DEFAULT_FALLBACK : string := "external/spleen/dos/spleen.asm".

(** [main()], [argv] being [sys.argv]. *)
Definition main (argv : list string) (w : world) : result Z * world :=
  match argv with
  | _ :: a1 :: a2 :: rest =>
      let src := pathlib.of_string a1 in
      let out := pathlib.of_string a2 in
      let fallback :=
        match rest with
        | a3 :: _ => pathlib.of_string a3
        | [] => pathlib.of_string DEFAULT_FALLBACK
        end in
      match build_glyph_table (disk w) src (Some fallback) with
      | Ok (table, desc) => (Ok 0, emit_c table out desc w)
      | Raise e => (Raise e, w)
      end
  | _ => (Ok 1, {| disk := disk w; stdout := stdout w +:+ USAGE +:+ LF |})
  end.

(** How a run ends: the exit status, the exception that ends it (the
    script itself raises [SystemExit] when [main] returns), and the world
    it leaves. *)
Record outcome := { status : Z; raised : exn; final : world }.

(** The status the interpreter exits with on an exception: the code of a
    [SystemExit], 1 when its argument is a message (which is printed on the
    error stream), 1 for any other exception. *)
Definition exit_status (e : exn) : Z :=
  match e with
  | SystemExit (ExitCode n) => n
  | _ => 1
  end.

(** The script: [raise SystemExit(main())]. *)
Definition run (argv : list string) (fs : files) : outcome :=
  match main argv {| disk := fs; stdout := "" |} with
  | (Ok n, w) =>
      {| status := exit_status (SystemExit (ExitCode n));
         raised := SystemExit (ExitCode n); final := w |}
  | (Raise e, w) => {| status := exit_status e; raised := e; final := w |}
  end.

(** * Readings of an input that the statements use *)

(** A line that opens the legacy table: [line.strip().startswith(ASM_LABEL)]. *)
Definition is_label (line : string) : bool :=
  Py.startswith (Py.strip line) ASM_LABEL.

(** The lines that follow the first label line, if there is one. *)
Fixpoint after_label (lines : list string) : option (list string) :=
  match lines with
  | [] => None
  | l :: rest => if is_label l then Some rest else after_label rest
  end.

(** The digit texts of the lines that match the row pattern, in order. *)
Definition matched_rows (lines : list string) : list string :=
  omap ROW_RE_match lines.

(** The binary integer formed by a text of binary digits, the most
    significant bit first. *)
Definition bin_value (digits : string) : Z :=
  fold_left (fun acc c => 2 * acc + (if Ascii.eqb c "1" then 1 else 0))
            (list_ascii_of_string digits) 0.

(** The value [parse_asm] appends for a line, if the line matches. *)
Definition row_values (lines : list string) : list Z :=
  map bin_value (matched_rows lines).

(** The table cut from 4096 row values. *)
Definition chunks (vals : list Z) : list glyph :=
  map (fun i => Py.slice (i * 16) ((i + 1) * 16) vals) (seq 0 256).

(** The cases in which the legacy parser has no data: the file does not
    exist, no label line occurs, or fewer than 4096 rows match after it. *)
Definition asm_no_data (fs : files) (path : Path) : Prop :=
  fs !! pathlib.str path = None
  \/ exists text, fs !! pathlib.str path = Some text
       /\ (after_label (Py.splitlines text) = None
           \/ exists rest, after_label (Py.splitlines text) = Some rest
                /\ (length (matched_rows rest) < 4096)%nat).

(** The value of a row text of two hexadecimal digits. *)
Definition hex2_value (r : string) : Z :=
  match r with
  | String a (String b EmptyString) =>
      16 * default 0 (Py.digit_value a) + default 0 (Py.digit_value b)
  | _ => 0
  end.

(** The glyph of a definition that collected the row texts [collected]:
    the bytes of its first sixteen rows, then zeros up to sixteen bytes. *)
Definition glyph_of (collected : list string) : glyph :=
  take 16 (map hex2_value collected) ++ replicate (16 - length collected) 0.

(** The three kinds of line the primary parser reacts to. *)
Definition is_encoding (raw : string) : bool :=
  Py.startswith (Py.strip raw) "ENCODING ".

Definition is_bitmap (raw : string) : bool := String.eqb (Py.strip raw) "BITMAP".

Definition is_endchar (raw : string) : bool := String.eqb (Py.strip raw) "ENDCHAR".

(** The codepoint an [ENCODING] line declares: its second word, if that
    word is an integer. *)
Definition encoding_value (raw : string) : option Z :=
  match Py.split (Py.strip raw) !! 1%nat with
  | Some tok =>
      match Py.int tok 10 with
      | Ok v => Some v
      | Raise _ => None
      end
  | None => None
  end.

(** A block is the run of lines of one definition, up to but without its
    [ENDCHAR] line.  The codepoint pending at its end is the one declared
    by its last [ENCODING] line. *)
Definition pending_enc (block : list string) : option Z :=
  last (List.filter is_encoding block) ≫= encoding_value.

Definition seen_bitmap (block : list string) : bool := existsb is_bitmap block.

(** The lines since the last one that satisfies [P]; all of them if none does. *)
Definition since_last (P : string -> bool) (l : list string) : list string :=
  fold_left (fun acc x => if P x then [] else acc ++ [x]) l [].

(** The row texts a block has collected at its end: the stripped lines of
    two hexadecimal digits since its last [BITMAP] line. *)
Definition collected_rows (block : list string) : list string :=
  List.filter fullmatch_hex2 (map Py.strip (since_last is_bitmap block)).

(** A prefix of the input ends where a definition may start: it is empty
    or its last line is an [ENDCHAR] line. *)
Definition definition_start (pre : list string) : Prop :=
  match last pre with
  | None => True
  | Some e => is_endchar e = true
  end.

(** The loop body of [parse_bdf] as a total step, for states whose
    collected rows all have two hexadecimal digits. *)
Definition bdf_step (st : bdf_state) (raw : string) : bdf_state :=
  if is_encoding raw then
    {| glyphs := glyphs st; enc := encoding_value raw;
       collecting := collecting st; bitmap_rows := bitmap_rows st |}
  else if is_bitmap raw then
    {| glyphs := glyphs st; enc := enc st;
       collecting := true; bitmap_rows := [] |}
  else if is_endchar raw then
    {| glyphs := match enc st with
                 | Some e =>
                     if collecting st
                     then <[e := glyph_of (bitmap_rows st)]> (glyphs st)
                     else glyphs st
                 | None => glyphs st
                 end;
       enc := None; collecting := false; bitmap_rows := [] |}
  else if collecting st && fullmatch_hex2 (Py.strip raw) then
    {| glyphs := glyphs st; enc := enc st; collecting := collecting st;
       bitmap_rows := bitmap_rows st ++ [Py.strip raw] |}
  else st.

(** The collected rows of a state all have two hexadecimal digits. *)
Definition rows_ok (st : bdf_state) : Prop :=
  Forall (fun r => fullmatch_hex2 r = true) (bitmap_rows st).

(** The state in which a definition starts. *)
Definition bdf_reset (gs : gmap Z glyph) : bdf_state :=
  {| glyphs := gs; enc := None; collecting := false; bitmap_rows := [] |}.

Definition hex_chars : list ascii :=
  list_ascii_of_string "0123456789ABCDEFabcdef".

(** The glyph the table holds at [cp]: that of the primary mapping, else
    that of the fallback table, else sixteen zeros. *)
Definition resolve_glyph (bdf_glyphs : gmap Z glyph)
    (asm_fallback : option (list glyph)) (cp : nat) : glyph :=
  match bdf_glyphs !! Z.of_nat cp with
  | Some g => g
  | None =>
      match asm_fallback with
      | Some t => default (replicate 16 0) (t !! cp)
      | None => replicate 16 0
      end
  end.

(** The descriptor of a primary-format source notes the fallback. *)
Definition notes_fallback (src : Path) (desc : string) : Prop :=
  desc = pathlib.str src +:+ " (BDF) + ASM fallback".

(** The fallback contributed: some slot of the table is missing from the
    primary mapping and was taken from the fallback table. *)
Definition fallback_contributed (bdf_glyphs : gmap Z glyph)
    (asm_fallback : option (list glyph)) : Prop :=
  exists (cp : nat) (t : list glyph) (g : glyph),
    (cp < 256)%nat /\ bdf_glyphs !! Z.of_nat cp = None
    /\ asm_fallback = Some t /\ t !! cp = Some g.

(** The paths a run reads, as [main] takes them from its arguments. *)
Definition source_arg (argv : list string) : option Path :=
  pathlib.of_string <$> argv !! 1%nat.

Definition fallback_arg (argv : list string) : Path :=
  pathlib.of_string (default DEFAULT_FALLBACK (argv !! 3%nat)).

(** Two file systems agree on a path: absent in both, or the same text. *)
Definition same_file (fs1 fs2 : files) (p : Path) : Prop :=
  fs1 !! pathlib.str p = fs2 !! pathlib.str p.

(** * Sample inputs *)

(** A legacy file: the label, 4096 blank rows, then more content. *)
Definition asm_zero_text : string :=
  "spleen:" +:+ LF
  +:+ String.concat "" (replicate 4096 ("    db 00000000b" +:+ LF))
  +:+ "        db 11111111b" +:+ LF.

Definition asm_zero_rest : list string :=
  replicate 4096 "    db 00000000b" ++ ["        db 11111111b"].

Definition fs_zero : files := {[ "spleen.asm" := asm_zero_text ]}.

(** A legacy file with the label and ten rows only. *)
Definition asm_short_text : string :=
  "spleen:" +:+ LF
  +:+ String.concat "" (replicate 10 ("    db 00011000b" +:+ LF)).

Definition fs_short : files := {[ "short.asm" := asm_short_text ]}.

(** A primary file with the single definition of codepoint 65. *)
Definition bdf_A_lines : list string :=
  ["STARTCHAR A"; "ENCODING 65"; "BITMAP"; "FF"; "ENDCHAR"].

Definition bdf_A_text : string :=
  String.concat "" (map (fun l => l +:+ LF) bdf_A_lines).

Definition glyph_A : glyph := 255 :: replicate 15 0.

Definition fs_A : files := {[ "spleen.bdf" := bdf_A_text ]}.

(** A primary file that declares a codepoint and ends the definition
    without a [BITMAP] line. *)
Definition bdf_nobitmap_text : string :=
  "STARTCHAR A" +:+ LF +:+ "ENCODING 65" +:+ LF +:+ "FF" +:+ LF
  +:+ "ENDCHAR" +:+ LF.

Definition fs_nobitmap : files := {[ "nobitmap.bdf" := bdf_nobitmap_text ]}.

(** The decimal text of a number below 1000. *)
Definition decimal (n : nat) : string :=
  let digit (k : nat) := String (ascii_of_nat (48 + k)) "" in
  (if (100 <=? n)%nat then digit (n / 100)%nat else "")
  +:+ (if (10 <=? n)%nat then digit ((n / 10) mod 10)%nat else "")
  +:+ digit (n mod 10)%nat.

(** A primary file that defines every codepoint from 0 to 255 as a blank
    glyph, next to a complete legacy file at the default fallback path. *)
Definition bdf_full_text : string :=
  String.concat ""
    (map (fun cp => "ENCODING " +:+ decimal cp +:+ LF +:+ "BITMAP" +:+ LF
                    +:+ "ENDCHAR" +:+ LF)
         (seq 0 256)).

Definition full_glyphs : gmap Z glyph :=
  list_to_map (map (fun cp => (Z.of_nat cp, replicate 16 0)) (seq 0 256)).

Definition fs_full : files :=
  <["full.bdf" := bdf_full_text]> {[ DEFAULT_FALLBACK := asm_zero_text ]}.

(** * Readings for the further properties *)

(** A glyph of the table: sixteen values, each a byte. *)
Definition byte_glyph (g : glyph) : Prop :=
  length g = 16%nat /\ Forall (fun b => 0 <= b < 256) g.

(** The inputs on which a run can succeed: a primary-format source that
    exists, or a legacy source that holds a complete table. *)
Definition source_usable (fs : files) (src : Path) : Prop :=
  (Py.lower (pathlib.suffix src) = ".bdf" /\ is_Some (fs !! pathlib.str src))
  \/ (Py.lower (pathlib.suffix src) = ".asm" /\ ~ asm_no_data fs src).

(** A line the primary parser can react to: a keyword line or a row. *)
Definition bdf_relevant (raw : string) : bool :=
  is_encoding raw || is_bitmap raw || is_endchar raw
  || fullmatch_hex2 (Py.strip raw).

(** A text made of whitespace only. *)
Definition all_space (s : string) : bool :=
  forallb Py.isspace (list_ascii_of_string s).

(** An [ENCODING] line that declares the codepoint [cp]. *)
Definition declares (cp : Z) (raw : string) : Prop :=
  is_encoding raw = true /\ encoding_value raw = Some cp.

(** A text without a line boundary of [str.splitlines]. *)
Definition no_break (s : string) : bool :=
  forallb (fun c => negb (Py.islinebreak c)) (list_ascii_of_string s).

(** The line of the array for the glyph at [idx], without its line feed. *)
Definition row_line (idx : nat) (g : glyph) : string :=
  "    /* 0x" +:+ Py.format_02X (Z.of_nat idx) +:+ " */ {"
  +:+ Py.join ", " (map (fun b => "0x" +:+ Py.format_02X b) g) +:+ "},".

(** A carriage return followed by a line feed. *)
Definition CRLF : string := String "013" LF.

(** The text of a file whose lines each end in [eol]. *)
Definition unlines (eol : string) (lines : list string) : string :=
  String.concat "" (map (fun l => l +:+ eol) lines).

(** The primary file of codepoint 65 with a second definition, of
    codepoint 300, outside the range of the table. *)
Definition bdf_A300_text : string :=
  bdf_A_text +:+ "ENCODING 300" +:+ LF +:+ "BITMAP" +:+ LF +:+ "81" +:+ LF
  +:+ "ENDCHAR" +:+ LF.

Definition fs_A300 : files := {[ "spleen.bdf" := bdf_A300_text ]}.

Definition glyphs_A300 : gmap Z glyph :=
  <[300 := 129 :: replicate 15 0]> {[ 65 := glyph_A ]}.

(** The primary file of codepoint 65 with carriage return and line feed. *)
Definition fs_crlf : files := {[ "crlf.bdf" := unlines CRLF bdf_A_lines ]}.

(** Two definitions, of codepoints 65 and 66. *)
Definition block_65 : list string := ["ENCODING 65"; "BITMAP"; "FF"].

Definition lines_66 : list string := ["ENCODING 66"; "BITMAP"; "00"; "ENDCHAR"].

(** * The disk behind the file system *)

(** The cases in which a text holds no legacy table: no label line occurs,
    or fewer than 4096 rows match after the first one. *)
Definition text_no_data (text : string) : Prop :=
  after_label (Py.splitlines text) = None
  \/ exists rest, after_label (Py.splitlines text) = Some rest
       /\ (length (matched_rows rest) < 4096)%nat.

Module Disk.

(** What a path that exists leads to. *)
Inductive node :=
  | Text (text : string)
  | Directory
  | Undecodable
  | Forbidden.

Abbreviation disk := (gmap string node).

(** [path.exists()] *)
Definition path_exists (d : disk) (path : Path) : bool :=
  bool_decide (is_Some (d !! pathlib.str path)).

(** [path.read_text()]: opening a missing path, a directory or a file
    without read permission raises, and so does decoding bytes that are
    not text. *)
Definition read_text (d : disk) (path : Path) : result string :=
  match d !! pathlib.str path with
  | None => Raise (FileNotFoundError (pathlib.str path))
  | Some (Text text) => Ok text
  | Some Directory => Raise (IsADirectoryError (pathlib.str path))
  | Some Undecodable => Raise UnicodeDecodeError
  | Some Forbidden => Raise (PermissionError (pathlib.str path))
  end.

Definition parse_asm (d : disk) (path : Path) : result (option (list glyph)) :=
  if negb (path_exists d path) then Ok None
  else
    text <~ read_text d path ;;
    parse_asm_lines (Py.splitlines text).

Definition parse_bdf (d : disk) (path : Path) : result (gmap Z glyph) :=
  text <~ read_text d path ;;
  parse_bdf_lines (Py.splitlines text).

(** The disk of a file system: every node is a text file. *)
Definition of_files (fs : files) : disk := Text <$> fs.

End Disk.

(** The cases in which the legacy parser has no data on a disk: the path
    does not exist, or it holds a text without a table. *)
Definition disk_no_data (d : Disk.disk) (path : Path) : Prop :=
  d !! pathlib.str path = None
  \/ exists text, d !! pathlib.str path = Some (Disk.Text text)
       /\ text_no_data text.

(** A complete legacy file next to a directory and to a file whose bytes
    are not text. *)
Definition disk_fonts : Disk.disk :=
  <["fonts" := Disk.Directory]>
    (<["raw.asm" := Disk.Undecodable]> (Disk.of_files fs_zero)).

(** * Properties *)

(** ** The loop combinator *)

Lemma rbind_ok {A B} (r : result A) (k : A -> result B) (b : B) :
  rbind r k = Ok b -> exists a, r = Ok a /\ k a = Ok b.
Proof. destruct r as [a|e]; simpl; [eauto | discriminate]. Qed.

Lemma mapM_pure {A B} (f : A -> result B) (g : A -> B) (l : list A) :
  Forall (fun x => f x = Ok (g x)) l -> mapM f l = Ok (map g l).
Proof.
  induction 1 as [|x l Hx _ IH]; simpl; [reflexivity|].
  rewrite Hx; simpl. rewrite IH. reflexivity.
Qed.

(** A loop whose body is a total step function that never breaks is a
    left fold. *)
Lemma for_each_fold {S A} (body : S -> A -> result (flow S))
    (step : S -> A -> S) (inv : S -> Prop) :
  (forall s x, inv s -> body s x = Ok (Next (step s x)) /\ inv (step s x)) ->
  forall l s, inv s ->
    for_each body s l = Ok (fold_left step l s) /\ inv (fold_left step l s).
Proof.
  intros Hstep l. induction l as [|x l IH]; intros s Hs; simpl; [auto|].
  destruct (Hstep s x Hs) as [-> Hs']. apply IH, Hs'.
Qed.

(** ** Characters *)

Lemma is_bin_cases (c : ascii) : is_bin c = true -> c = "0"%char \/ c = "1"%char.
Proof.
  unfold is_bin. intros H. apply orb_true_iff in H as [H|H];
    apply Ascii.eqb_eq in H; auto.
Qed.

(** ** The legacy parser *)

Lemma ROW_RE_match_shape (line d : string) :
  ROW_RE_match line = Some d ->
  exists c0 c1 c2 c3 c4 c5 c6 c7,
    d = string_of_list_ascii [c0; c1; c2; c3; c4; c5; c6; c7]
    /\ forallb is_bin [c0; c1; c2; c3; c4; c5; c6; c7] = true.
Proof.
  unfold ROW_RE_match.
  destruct (Py.lstrip line) as [|a [|b rest]]; try discriminate.
  - destruct a as [[] [] [] [] [] [] [] []]; discriminate.
  - destruct a as [[] [] [] [] [] [] [] []]; try discriminate.
    destruct b as [[] [] [] [] [] [] [] []]; try discriminate.
    destruct (Py.lstrip rest)
      as [|c0 [|c1 [|c2 [|c3 [|c4 [|c5 [|c6 [|c7 [|c8 tl]]]]]]]]];
      try discriminate.
    destruct c8 as [[] [] [] [] [] [] [] []]; try discriminate.
    destruct (forallb is_bin [c0; c1; c2; c3; c4; c5; c6; c7]) eqn:Hb;
      try discriminate.
    intros [= <-]. exists c0, c1, c2, c3, c4, c5, c6, c7. auto.
Qed.

Lemma int_bin_digits (c0 c1 c2 c3 c4 c5 c6 c7 : ascii) :
  forallb is_bin [c0; c1; c2; c3; c4; c5; c6; c7] = true ->
  let d := string_of_list_ascii [c0; c1; c2; c3; c4; c5; c6; c7] in
  Py.int d 2 = Ok (bin_value d)
  /\ 0 <= bin_value d < 256
  /\ forall k, (k < 8)%nat ->
       Z.testbit (bin_value d) (7 - Z.of_nat k)
       = bool_decide (String.get k d = Some "1"%char).
Proof.
  intros H. simpl in H.
  repeat (apply andb_true_iff in H as [?%is_bin_cases H]).
  repeat match goal with Hc : _ \/ _ |- _ => destruct Hc as [-> | ->] end;
    (split; [vm_compute; reflexivity|]);
    (split; [vm_compute; split; congruence|]);
    intros k Hk;
    do 8 (destruct k as [|k]; [vm_compute; reflexivity|]); lia.
Qed.

Lemma ROW_RE_match_int (line d : string) :
  ROW_RE_match line = Some d -> Py.int d 2 = Ok (bin_value d).
Proof.
  intros H. apply ROW_RE_match_shape in H as (c0&c1&c2&c3&c4&c5&c6&c7&->&Hb).
  apply (int_bin_digits _ _ _ _ _ _ _ _ Hb).
Qed.

Lemma row_values_cons (l : string) (rest : list string) :
  row_values (l :: rest)
  = match ROW_RE_match l with
    | Some d => bin_value d :: row_values rest
    | None => row_values rest
    end.
Proof.
  unfold row_values, matched_rows. simpl. destruct (ROW_RE_match l); reflexivity.
Qed.

(** Once inside the table the loop collects the values of the matching
    lines and stops at the 4096th. *)
Lemma parse_asm_collect (lines : list string) (acc : list Z) :
  (length acc < 4096)%nat ->
  for_each parse_asm_body {| in_table := true; rows := acc |} lines
  = Ok {| in_table := true; rows := take 4096 (acc ++ row_values lines) |}.
Proof.
  revert acc. induction lines as [|l lines IH]; intros acc Hacc.
  - simpl. unfold row_values, matched_rows; simpl.
    rewrite app_nil_r, take_ge by lia. reflexivity.
  - rewrite row_values_cons. cbn [for_each]. unfold parse_asm_body.
    cbn [in_table rows negb].
    destruct (ROW_RE_match l) as [d|] eqn:Hm; [|apply IH, Hacc].
    rewrite (ROW_RE_match_int _ _ Hm). cbn [rbind].
    change (256 * 16)%nat with 4096%nat.
    destruct (Nat.eqb_spec (length (acc ++ [bin_value d])) 4096) as [He|Hne].
    + f_equal. f_equal.
      replace (acc ++ bin_value d :: row_values lines)
        with ((acc ++ [bin_value d]) ++ row_values lines)
        by (rewrite <- app_assoc; reflexivity).
      rewrite take_app_le by lia. rewrite take_ge by lia. reflexivity.
    + rewrite IH by (rewrite length_app in *; simpl in *; lia).
      rewrite <- app_assoc. reflexivity.
Qed.

Lemma parse_asm_seek (lines : list string) :
  for_each parse_asm_body {| in_table := false; rows := [] |} lines
  = Ok match after_label lines with
       | Some rest =>
           {| in_table := true; rows := take 4096 (row_values rest) |}
       | None => {| in_table := false; rows := [] |}
       end.
Proof.
  induction lines as [|l lines IH]; [reflexivity|].
  cbn [for_each after_label]. unfold parse_asm_body at 1. cbn [in_table negb rows].
  fold (is_label l). destruct (is_label l).
  - rewrite parse_asm_collect by (simpl; lia). reflexivity.
  - apply IH.
Qed.

(** What the legacy parser computes, read off the input. *)
Lemma parse_asm_lines_spec (lines : list string) :
  parse_asm_lines lines
  = Ok match after_label lines with
       | Some rest =>
           if (4096 <=? length (matched_rows rest))%nat
           then Some (chunks (take 4096 (row_values rest)))
           else None
       | None => None
       end.
Proof.
  unfold parse_asm_lines. rewrite parse_asm_seek. cbn [rbind].
  change (256 * 16)%nat with 4096%nat.
  destruct (after_label lines) as [rest|]; [|reflexivity].
  cbn [rows]. rewrite length_take. unfold row_values at 1. rewrite length_map.
  destruct (Nat.leb_spec 4096 (length (matched_rows rest))).
  - rewrite Nat.min_l by lia. reflexivity.
  - rewrite Nat.min_r by lia.
    destruct (Nat.eqb_spec (length (matched_rows rest)) 4096); [lia|reflexivity].
Qed.

Lemma chunks_length (vals : list Z) : length (chunks vals) = 256%nat.
Proof. unfold chunks. rewrite length_map, length_seq. reflexivity. Qed.

Lemma chunks_lookup (vals : list Z) (i : nat) :
  length vals = 4096%nat -> (i < 256)%nat ->
  exists g, chunks vals !! i = Some g /\ length g = 16%nat
    /\ forall j, (j < 16)%nat -> g !! j = vals !! (i * 16 + j)%nat.
Proof.
  intros Hlen Hi. unfold chunks, Py.slice.
  exists (take ((i + 1) * 16 - i * 16) (drop (i * 16) vals)). split; [|split].
  - rewrite list_lookup_fmap, lookup_seq_lt by lia. reflexivity.
  - rewrite length_take, length_drop. lia.
  - intros j Hj. rewrite lookup_take_lt by lia. apply lookup_drop.
Qed.

Lemma chunks_glyphs (vals : list Z) :
  length vals = 4096%nat -> Forall (fun g => length g = 16%nat) (chunks vals).
Proof.
  intros Hlen. apply Forall_lookup_2. intros i g Hg.
  assert (Hi : (i < 256)%nat)
    by (rewrite <- (chunks_length vals); eapply lookup_lt_Some, Hg).
  destruct (chunks_lookup vals i Hlen Hi) as (g' & Hg' & Hl & _). congruence.
Qed.

Lemma matched_rows_shape (lines : list string) (n : nat) (d : string) :
  matched_rows lines !! n = Some d -> exists line, ROW_RE_match line = Some d.
Proof.
  intros H. apply list_elem_of_lookup_2 in H.
  apply list_elem_of_omap in H as (line & _ & Hm). eauto.
Qed.

Lemma read_text_Some (fs : files) (path : Path) (text : string) :
  fs !! pathlib.str path = Some text ->
  path_exists fs path = true /\ read_text fs path = Ok text.
Proof.
  intros H. unfold path_exists, read_text. rewrite H. split; [|reflexivity].
  apply bool_decide_eq_true. eauto.
Qed.

Lemma read_text_None (fs : files) (path : Path) :
  fs !! pathlib.str path = None ->
  path_exists fs path = false
  /\ read_text fs path = Raise (FileNotFoundError (pathlib.str path)).
Proof.
  intros H. unfold path_exists, read_text. rewrite H. split; [|reflexivity].
  apply bool_decide_eq_false. intros [? ?]; discriminate.
Qed.

(** What [parse_asm] returns, read off the file system. *)
Lemma parse_asm_spec (fs : files) (path : Path) :
  parse_asm fs path
  = Ok match fs !! pathlib.str path with
       | None => None
       | Some text =>
           match after_label (Py.splitlines text) with
           | Some rest =>
               if (4096 <=? length (matched_rows rest))%nat
               then Some (chunks (take 4096 (row_values rest)))
               else None
           | None => None
           end
       end.
Proof.
  unfold parse_asm. destruct (fs !! pathlib.str path) as [text|] eqn:Hf.
  - destruct (read_text_Some _ _ _ Hf) as [-> ->]. cbn [negb rbind].
    apply parse_asm_lines_spec.
  - destruct (read_text_None _ _ Hf) as [-> _]. reflexivity.
Qed.

Lemma parse_asm_table_shape (fs : files) (path : Path) (table : list glyph) :
  parse_asm fs path = Ok (Some table) ->
  length table = 256%nat /\ Forall (fun g => length g = 16%nat) table.
Proof.
  rewrite parse_asm_spec.
  destruct (fs !! pathlib.str path) as [text|]; [|discriminate].
  destruct (after_label (Py.splitlines text)) as [rest|]; [|discriminate].
  destruct (Nat.leb_spec 4096 (length (matched_rows rest))); [|discriminate].
  intros [= <-]. split; [apply chunks_length|]. apply chunks_glyphs.
  rewrite length_take. unfold row_values. rewrite length_map. lia.
Qed.

(** C2. A legacy input with at least 4096 matching rows after its first
    label line parses to exactly 256 glyphs of 16 bytes; byte [j] of glyph
    [i] is the value of matched row [i * 16 + j], and that value is the
    binary integer of the row's eight digits, the first digit being bit 7. *)
Theorem parse_asm_full_table (fs : files) (path : Path) (text : string)
    (rest : list string) :
  fs !! pathlib.str path = Some text ->
  after_label (Py.splitlines text) = Some rest ->
  (4096 <= length (matched_rows rest))%nat ->
  exists table,
    parse_asm fs path = Ok (Some table)
    /\ length table = 256%nat
    /\ Forall (fun g => length g = 16%nat) table
    /\ forall i j, (i < 256)%nat -> (j < 16)%nat ->
         exists g d,
           table !! i = Some g
           /\ matched_rows rest !! (i * 16 + j)%nat = Some d
           /\ g !! j = Some (bin_value d)
           /\ 0 <= bin_value d < 256
           /\ forall k, (k < 8)%nat ->
                Z.testbit (bin_value d) (7 - Z.of_nat k)
                = bool_decide (String.get k d = Some "1"%char).
Proof.
  intros Hf Hl Hn.
  assert (Hp : parse_asm fs path
               = Ok (Some (chunks (take 4096 (row_values rest))))).
  { rewrite parse_asm_spec, Hf, Hl.
    destruct (Nat.leb_spec 4096 (length (matched_rows rest))); [reflexivity|lia]. }
  destruct (parse_asm_table_shape _ _ _ Hp) as [Hlen Hg].
  eexists. split; [exact Hp|]. split; [exact Hlen|]. split; [exact Hg|].
  intros i j Hi Hj.
  assert (Hv : length (take 4096 (row_values rest)) = 4096%nat).
  { rewrite length_take. unfold row_values. rewrite length_map. lia. }
  destruct (chunks_lookup _ i Hv Hi) as (g & Hgi & _ & Hgj).
  destruct (lookup_lt_is_Some_2 (matched_rows rest) (i * 16 + j)) as [d Hd];
    [lia|].
  exists g, d. split; [exact Hgi|]. split; [exact Hd|].
  destruct (matched_rows_shape _ _ _ Hd) as (line & Hm).
  apply ROW_RE_match_shape in Hm as (c0&c1&c2&c3&c4&c5&c6&c7&->&Hb).
  destruct (int_bin_digits _ _ _ _ _ _ _ _ Hb) as (_ & Hr & Hbits).
  split; [|split; [exact Hr|exact Hbits]].
  rewrite (Hgj j Hj), lookup_take_lt by lia.
  unfold row_values. rewrite list_lookup_fmap, Hd. reflexivity.
Qed.

(** ** The primary parser *)

Lemma is_hex_cases (c : ascii) : is_hex c = true -> In c hex_chars.
Proof.
  destruct c as [[] [] [] [] [] [] [] []]; intros H;
    try discriminate H; vm_compute; tauto.
Qed.

Lemma int_hex2 (r : string) :
  fullmatch_hex2 r = true ->
  Py.int r 16 = Ok (hex2_value r) /\ 0 <= hex2_value r < 256.
Proof.
  destruct r as [|a [|b [|c r]]]; try discriminate. cbn [fullmatch_hex2].
  intros [Ha%is_hex_cases Hb%is_hex_cases]%andb_true_iff.
  revert b Hb. apply List.Forall_forall. revert a Ha. apply List.Forall_forall.
  repeat constructor; vm_compute; congruence.
Qed.

Lemma pad_rows_spec (fuel : nat) (rs : list Z) :
  (16 <= fuel + length rs)%nat ->
  pad_rows fuel rs = rs ++ replicate (16 - length rs) 0.
Proof.
  revert rs. induction fuel as [|fuel IH]; intros rs H; simpl.
  - replace (16 - length rs)%nat with 0%nat by lia. symmetry. apply app_nil_r.
  - destruct (Nat.ltb_spec (length rs) 16).
    + rewrite IH by (rewrite length_app; simpl; lia).
      rewrite length_app. simpl. rewrite <- app_assoc. f_equal.
      replace (16 - length rs)%nat with (S (16 - (length rs + 1)))%nat by lia.
      reflexivity.
    + replace (16 - length rs)%nat with 0%nat by lia. symmetry. apply app_nil_r.
Qed.

(** The byte the parser computes from a collected row. *)
Lemma row_byte_hex2 (r : string) :
  fullmatch_hex2 r = true ->
  (v <~ Py.int r 16 ;; Ok (Z.land v 255)) = Ok (hex2_value r).
Proof.
  intros Hr. destruct (int_hex2 r Hr) as [-> Hv]. cbn [rbind]. f_equal.
  change 255 with (Z.ones 8). rewrite Z.land_ones by lia.
  apply Z.mod_small. change (2 ^ 8) with 256. lia.
Qed.

Lemma end_glyph_spec (rows : list string) :
  Forall (fun r => fullmatch_hex2 r = true) rows ->
  end_glyph rows = Ok (glyph_of rows).
Proof.
  intros H. unfold end_glyph, Py.slice. rewrite drop_0, Nat.sub_0_r.
  rewrite (mapM_pure _ hex2_value).
  - cbn [rbind]. rewrite pad_rows_spec by lia. unfold glyph_of.
    rewrite <- fmap_take. f_equal. rewrite length_fmap, length_take.
    f_equal. f_equal. lia.
  - eapply Forall_impl; [apply Forall_take, H|]. intros r Hr. cbn beta.
    apply row_byte_hex2, Hr.
Qed.

Lemma glyph_of_length (rows : list string) : length (glyph_of rows) = 16%nat.
Proof.
  unfold glyph_of. rewrite length_app, length_take, length_map, length_replicate.
  lia.
Qed.

Lemma glyph_of_lookup (rows : list string) (j : nat) :
  (j < 16)%nat ->
  glyph_of rows !! j = Some (default 0 (hex2_value <$> rows !! j)).
Proof.
  intros Hj. unfold glyph_of.
  destruct (rows !! j) as [r|] eqn:Hr; cbn [fmap option_fmap option_map default].
  - rewrite lookup_app_l
      by (rewrite length_take, length_map; apply lookup_lt_Some in Hr; lia).
    rewrite lookup_take_lt by lia. rewrite list_lookup_fmap, Hr. reflexivity.
  - apply lookup_ge_None in Hr.
    rewrite lookup_app_r by (rewrite length_take, length_map; lia).
    rewrite length_take, length_map. apply lookup_replicate_2. lia.
Qed.

Lemma glyph_of_take (rows : list string) : glyph_of (take 16 rows) = glyph_of rows.
Proof.
  apply list_eq. intros j. destruct (Nat.lt_ge_cases j 16) as [Hj|Hj].
  - rewrite !glyph_of_lookup by exact Hj. rewrite lookup_take_lt by exact Hj.
    reflexivity.
  - rewrite !lookup_ge_None_2 by (rewrite glyph_of_length; exact Hj). reflexivity.
Qed.

Lemma startswith_length (s p : string) :
  Py.startswith s p = true -> (String.length p <= String.length s)%nat.
Proof.
  unfold Py.startswith. revert s. induction p as [|a p IH]; intros s H; simpl.
  - lia.
  - destruct s as [|b s]; simpl in H; [discriminate|].
    destruct (ascii_dec a b); [|discriminate]. apply IH in H. simpl. lia.
Qed.

(** An [ENCODING] line is neither of the two marker lines nor a row. *)
Lemma is_encoding_other (raw : string) :
  is_encoding raw = true ->
  is_bitmap raw = false /\ is_endchar raw = false
  /\ fullmatch_hex2 (Py.strip raw) = false.
Proof.
  unfold is_encoding, is_bitmap, is_endchar. intros H%startswith_length.
  cbn [String.length] in H. repeat split.
  - apply String.eqb_neq. intros E. rewrite E in H. cbn in H. lia.
  - apply String.eqb_neq. intros E. rewrite E in H. cbn in H. lia.
  - destruct (Py.strip raw) as [|a [|b [|c r]]]; cbn in H |- *; try reflexivity; lia.
Qed.

Lemma is_bitmap_other (raw : string) :
  is_bitmap raw = true ->
  is_encoding raw = false /\ is_endchar raw = false
  /\ fullmatch_hex2 (Py.strip raw) = false.
Proof.
  unfold is_encoding, is_bitmap, is_endchar. intros ->%String.eqb_eq.
  repeat split.
Qed.

Lemma is_endchar_other (raw : string) :
  is_endchar raw = true -> is_encoding raw = false /\ is_bitmap raw = false.
Proof.
  unfold is_encoding, is_bitmap, is_endchar. intros ->%String.eqb_eq.
  repeat split.
Qed.

Lemma int_raises (s : string) (base : Z) (e : exn) :
  Py.int s base = Raise e -> e = ValueError.
Proof.
  unfold Py.int.
  destruct (match s with
            | String "+" s' => Py.int_unsigned base s'
            | String "-" s' => Z.opp <$> Py.int_unsigned base s'
            | _ => Py.int_unsigned base s
            end); congruence.
Qed.

(** The loop body never raises and never breaks. *)
Lemma parse_bdf_body_step (st : bdf_state) (raw : string) :
  rows_ok st ->
  parse_bdf_body st raw = Ok (Next (bdf_step st raw)) /\ rows_ok (bdf_step st raw).
Proof.
  unfold rows_ok, parse_bdf_body, bdf_step. intros Hok.
  fold (is_encoding raw) (is_bitmap raw) (is_endchar raw).
  destruct (is_encoding raw) eqn:He.
  { split; [|exact Hok]. unfold encoding_value, Py.getitem.
    destruct (Py.split (Py.strip raw) !! 1%nat) as [tok|]; [|reflexivity].
    cbn [rbind]. destruct (Py.int tok 10) as [v|e] eqn:Hi; [reflexivity|].
    rewrite (int_raises _ _ _ Hi). reflexivity. }
  destruct (is_bitmap raw) eqn:Hb; [split; [reflexivity|constructor]|].
  destruct (is_endchar raw) eqn:Hc.
  { split; [|constructor]. destruct (enc st) as [e|]; [|reflexivity].
    destruct (collecting st); [|reflexivity].
    rewrite (end_glyph_spec _ Hok). reflexivity. }
  destruct (collecting st); [|auto].
  destruct (fullmatch_hex2 (Py.strip raw)) eqn:Hh; [|auto].
  cbn [andb bitmap_rows]. split; [reflexivity|].
  apply Forall_app. split; [exact Hok|]. constructor; [exact Hh|constructor].
Qed.

Lemma for_each_bdf (lines : list string) :
  for_each parse_bdf_body bdf_init lines = Ok (fold_left bdf_step lines bdf_init).
Proof.
  destruct (for_each_fold parse_bdf_body bdf_step rows_ok parse_bdf_body_step
              lines bdf_init) as [-> _]; [constructor|reflexivity].
Qed.

Lemma parse_bdf_lines_fold (lines : list string) :
  parse_bdf_lines lines = Ok (glyphs (fold_left bdf_step lines bdf_init)).
Proof. unfold parse_bdf_lines. rewrite for_each_bdf. reflexivity. Qed.

Lemma since_last_snoc (P : string -> bool) (l : list string) (x : string) :
  since_last P (l ++ [x]) = if P x then [] else since_last P l ++ [x].
Proof. unfold since_last. rewrite fold_left_app. reflexivity. Qed.

Lemma pending_enc_snoc (block : list string) (x : string) :
  pending_enc (block ++ [x])
  = if is_encoding x then encoding_value x else pending_enc block.
Proof.
  unfold pending_enc. rewrite List.filter_app. cbn [List.filter].
  destruct (is_encoding x).
  - rewrite last_snoc. reflexivity.
  - rewrite app_nil_r. reflexivity.
Qed.

Lemma seen_bitmap_snoc (block : list string) (x : string) :
  seen_bitmap (block ++ [x]) = seen_bitmap block || is_bitmap x.
Proof.
  unfold seen_bitmap. rewrite existsb_app. cbn [existsb].
  rewrite orb_false_r. reflexivity.
Qed.

Lemma collected_rows_snoc (block : list string) (x : string) :
  collected_rows (block ++ [x])
  = if is_bitmap x then []
    else if fullmatch_hex2 (Py.strip x)
         then collected_rows block ++ [Py.strip x]
         else collected_rows block.
Proof.
  unfold collected_rows. rewrite since_last_snoc.
  destruct (is_bitmap x); [reflexivity|].
  rewrite map_app, List.filter_app. cbn [map List.filter].
  destruct (fullmatch_hex2 (Py.strip x)); [reflexivity|apply app_nil_r].
Qed.

(** The state at the end of a block that starts a definition. *)
Lemma bdf_block_state (gs : gmap Z glyph) (block : list string) :
  Forall (fun l => is_endchar l = false) block ->
  fold_left bdf_step block (bdf_reset gs)
  = {| glyphs := gs; enc := pending_enc block;
       collecting := seen_bitmap block;
       bitmap_rows := if seen_bitmap block then collected_rows block else [] |}.
Proof.
  induction block as [|x block IH] using rev_ind; intros H; [reflexivity|].
  apply Forall_app in H as [Hb Hx]. apply Forall_inv in Hx.
  cbn beta in Hx. rewrite fold_left_app, (IH Hb). cbn [fold_left].
  rewrite pending_enc_snoc, seen_bitmap_snoc, collected_rows_snoc.
  unfold bdf_step. cbn [glyphs enc collecting bitmap_rows]. rewrite Hx.
  destruct (is_encoding x) eqn:He.
  { destruct (is_encoding_other x He) as (-> & _ & ->).
    rewrite orb_false_r. reflexivity. }
  destruct (is_bitmap x) eqn:Hm; [rewrite orb_true_r; reflexivity|].
  rewrite orb_false_r.
  destruct (seen_bitmap block); cbn [andb]; [|reflexivity].
  destruct (fullmatch_hex2 (Py.strip x)); reflexivity.
Qed.

Lemma bdf_endchar_resets (st : bdf_state) (e : string) :
  is_endchar e = true -> exists gs, bdf_step st e = bdf_reset gs.
Proof.
  intros He. unfold bdf_step. destruct (is_endchar_other e He) as [-> ->].
  rewrite He. eexists. reflexivity.
Qed.

Lemma bdf_definition_start (pre : list string) :
  definition_start pre ->
  exists gs, fold_left bdf_step pre bdf_init = bdf_reset gs.
Proof.
  unfold definition_start.
  destruct pre as [|e pre _] using rev_ind; [exists ∅; reflexivity|].
  rewrite last_snoc, fold_left_app. apply bdf_endchar_resets.
Qed.

(** What an [ENDCHAR] line stores at the end of a block. *)
Lemma bdf_definition_end (pre block : list string) (e : string) :
  definition_start pre ->
  Forall (fun l => is_endchar l = false) block ->
  is_endchar e = true ->
  glyphs (fold_left bdf_step (pre ++ block ++ [e]) bdf_init)
  = match pending_enc block with
    | Some cp =>
        if seen_bitmap block
        then <[cp := glyph_of (collected_rows block)]>
               (glyphs (fold_left bdf_step pre bdf_init))
        else glyphs (fold_left bdf_step pre bdf_init)
    | None => glyphs (fold_left bdf_step pre bdf_init)
    end.
Proof.
  intros Hpre Hblock He. rewrite !fold_left_app.
  destruct (bdf_definition_start pre Hpre) as [gs ->].
  rewrite (bdf_block_state gs block Hblock). cbn [fold_left glyphs bdf_reset].
  unfold bdf_step. destruct (is_endchar_other e He) as [-> ->]. rewrite He.
  cbn [glyphs enc collecting bitmap_rows].
  destruct (pending_enc block); [|reflexivity].
  destruct (seen_bitmap block); reflexivity.
Qed.

Lemma bdf_step_glyphs_16 (st : bdf_state) (raw : string) :
  map_Forall (fun _ g => length g = 16%nat) (glyphs st) ->
  map_Forall (fun _ g => length g = 16%nat) (glyphs (bdf_step st raw)).
Proof.
  intros H. unfold bdf_step.
  destruct (is_encoding raw); [exact H|].
  destruct (is_bitmap raw); [exact H|].
  destruct (is_endchar raw).
  - cbn [glyphs]. destruct (enc st); [|exact H].
    destruct (collecting st); [|exact H].
    apply map_Forall_insert_2; [apply glyph_of_length|exact H].
  - destruct (collecting st && fullmatch_hex2 (Py.strip raw)); exact H.
Qed.

Lemma bdf_fold_glyphs_16 (lines : list string) (st : bdf_state) :
  map_Forall (fun _ g => length g = 16%nat) (glyphs st) ->
  map_Forall (fun _ g => length g = 16%nat) (glyphs (fold_left bdf_step lines st)).
Proof.
  revert st. induction lines as [|l lines IH]; intros st H; [exact H|].
  apply IH, bdf_step_glyphs_16, H.
Qed.

(** C4. Every glyph of the mapping the primary parser returns has exactly
    16 bytes; and the glyph a definition stores has, at each index below
    16, the byte of the row collected at that index, or zero where the
    definition collected no such row: fewer than 16 rows are padded with
    zeros, rows from the seventeenth on are ignored.  The byte of a row is
    the one the parser computes, [int(r, 16) & 0xFF]. *)
Theorem parse_bdf_glyphs_16 :
  (forall (fs : files) (path : Path) (gs : gmap Z glyph) (cp : Z) (g : glyph),
      parse_bdf fs path = Ok gs -> gs !! cp = Some g -> length g = 16%nat)
  /\ (forall (pre block : list string) (e : string) (cp : Z),
        definition_start pre ->
        Forall (fun l => is_endchar l = false) block ->
        is_endchar e = true ->
        pending_enc block = Some cp ->
        seen_bitmap block = true ->
        exists gs g,
          parse_bdf_lines (pre ++ block ++ [e]) = Ok gs
          /\ gs !! cp = Some g
          /\ length g = 16%nat
          /\ (forall j, (j < 16)%nat ->
                g !! j
                = Some (default 0 (hex2_value <$> collected_rows block !! j)))
          /\ Forall (fun r => (v <~ Py.int r 16 ;; Ok (Z.land v 255))
                              = Ok (hex2_value r))
                    (collected_rows block)).
Proof.
  split.
  - intros fs path gs cp g Hp Hg. unfold parse_bdf in Hp.
    apply rbind_ok in Hp as (text & _ & Hp).
    rewrite parse_bdf_lines_fold in Hp. injection Hp as <-.
    apply (bdf_fold_glyphs_16 (Py.splitlines text) bdf_init (map_Forall_empty _)
             cp g Hg).
  - intros pre block e cp Hpre Hblock He Henc Hbm.
    exists (<[cp := glyph_of (collected_rows block)]>
              (glyphs (fold_left bdf_step pre bdf_init))),
           (glyph_of (collected_rows block)).
    split; [|split; [apply lookup_insert_eq|split; [|split]]].
    + rewrite parse_bdf_lines_fold.
      rewrite (bdf_definition_end pre block e Hpre Hblock He), Henc, Hbm.
      reflexivity.
    + apply glyph_of_length.
    + intros j Hj. apply glyph_of_lookup, Hj.
    + apply List.Forall_forall. intros r Hr.
      apply List.filter_In in Hr as [_ Hr]. apply row_byte_hex2, Hr.
Qed.

(** C5, as amended. At the [ENDCHAR] line that ends a block, the padded or
    truncated glyph of the rows collected since the block's last [BITMAP]
    line is stored under the codepoint of the block's last [ENCODING] line
    exactly when that line declares an integer and the block has a
    [BITMAP] line; otherwise the mapping is left as it was. *)
Theorem endchar_stores_pending (pre block : list string) (e : string) :
  definition_start pre ->
  Forall (fun l => is_endchar l = false) block ->
  is_endchar e = true ->
  exists before,
    parse_bdf_lines pre = Ok before
    /\ parse_bdf_lines (pre ++ block ++ [e])
       = Ok match pending_enc block with
            | Some cp =>
                if seen_bitmap block
                then <[cp := glyph_of (collected_rows block)]> before
                else before
            | None => before
            end.
Proof.
  intros Hpre Hblock He. exists (glyphs (fold_left bdf_step pre bdf_init)).
  split; [apply parse_bdf_lines_fold|].
  rewrite parse_bdf_lines_fold. f_equal.
  apply (bdf_definition_end pre block e Hpre Hblock He).
Qed.

Lemma bdf_no_encoding_keeps (rest : list string) (st : bdf_state) :
  enc st = None ->
  Forall (fun l => is_encoding l = false) rest ->
  glyphs (fold_left bdf_step rest st) = glyphs st.
Proof.
  revert st. induction rest as [|x rest IH]; intros st Hst H; [reflexivity|].
  apply Forall_cons in H as [Hx Hrest]. cbn [fold_left].
  assert (Hs : enc (bdf_step st x) = None /\ glyphs (bdf_step st x) = glyphs st).
  { unfold bdf_step. rewrite Hx, Hst.
    destruct (is_bitmap x); [auto|]. destruct (is_endchar x); [auto|].
    destruct (collecting st && fullmatch_hex2 (Py.strip x)); auto. }
  destruct Hs as [Henc Hgl]. rewrite (IH _ Henc Hrest). exact Hgl.
Qed.

(** C10. An [ENDCHAR] line always leaves no pending codepoint, no
    collection in progress and no collected rows; whatever follows it, as
    long as no [ENCODING] line occurs, stores nothing: the mapping stays
    the one reached at that [ENDCHAR] line. *)
Theorem endchar_clears_pending (pre : list string) (e : string)
    (rest : list string) :
  is_endchar e = true ->
  Forall (fun l => is_encoding l = false) rest ->
  exists gs,
    for_each parse_bdf_body bdf_init (pre ++ [e])
    = Ok {| glyphs := gs; enc := None; collecting := false; bitmap_rows := [] |}
    /\ parse_bdf_lines (pre ++ [e]) = Ok gs
    /\ parse_bdf_lines (pre ++ [e] ++ rest) = Ok gs.
Proof.
  intros He Hrest.
  destruct (bdf_endchar_resets (fold_left bdf_step pre bdf_init) e He)
    as [gs Hgs].
  assert (Hst : fold_left bdf_step (pre ++ [e]) bdf_init = bdf_reset gs)
    by (rewrite fold_left_app; exact Hgs).
  exists gs. split; [|split].
  - rewrite for_each_bdf, Hst. reflexivity.
  - rewrite parse_bdf_lines_fold, Hst. reflexivity.
  - rewrite app_assoc, parse_bdf_lines_fold, fold_left_app, Hst.
    rewrite bdf_no_encoding_keeps; [reflexivity|reflexivity|exact Hrest].
Qed.

(** ** The table builder *)

Lemma table_entry_spec (bdf_glyphs : gmap Z glyph)
    (asm_fallback : option (list glyph)) (cp : nat) :
  table_entry bdf_glyphs asm_fallback cp
  = Ok (resolve_glyph bdf_glyphs asm_fallback cp).
Proof.
  unfold table_entry, resolve_glyph.
  destruct (bdf_glyphs !! Z.of_nat cp); [reflexivity|].
  destruct asm_fallback as [t|]; [|reflexivity].
  destruct (truthy (Some t) && (cp <? length t)%nat) eqn:Hc.
  - apply andb_true_iff in Hc as [_ Hc%Nat.ltb_lt].
    apply lookup_lt_is_Some_2 in Hc as [g Hg]. unfold Py.getitem.
    rewrite Hg. reflexivity.
  - apply andb_false_iff in Hc as [Hc|Hc%Nat.ltb_ge].
    + destruct t; [reflexivity|discriminate].
    + rewrite (lookup_ge_None_2 t cp Hc). reflexivity.
Qed.

Lemma parse_asm_total (fs : files) (path : Path) :
  exists fallback, parse_asm fs path = Ok fallback
    /\ truthy fallback = bool_decide (is_Some fallback).
Proof.
  destruct (parse_asm fs path) as [[t|]|e] eqn:Hp.
  - exists (Some t). split; [reflexivity|].
    destruct (parse_asm_table_shape _ _ _ Hp) as [Hlen _].
    destruct t; [discriminate|]. symmetry. apply bool_decide_eq_true. eauto.
  - exists None. split; [reflexivity|].
    symmetry. apply bool_decide_eq_false. intros [? ?]; discriminate.
  - rewrite parse_asm_spec in Hp. discriminate.
Qed.

(** What [build_glyph_table] returns for a primary-format source. *)
Lemma build_glyph_table_bdf (fs : files) (src fb : Path) (gs : gmap Z glyph)
    (fallback : option (list glyph)) :
  Py.lower (pathlib.suffix src) = ".bdf" ->
  parse_bdf fs src = Ok gs ->
  parse_asm fs fb = Ok fallback ->
  build_glyph_table fs src (Some fb)
  = Ok (map (resolve_glyph gs fallback) (seq 0 256),
        pathlib.str src +:+ " (BDF)"
          +:+ (if truthy fallback then " + ASM fallback" else "")).
Proof.
  intros Hext Hbdf Hasm. unfold build_glyph_table.
  rewrite Hext, Hbdf, Hasm. cbn [String.eqb Ascii.eqb Bool.eqb rbind].
  rewrite (mapM_pure _ (resolve_glyph gs fallback)); [reflexivity|].
  apply Forall_forall. intros cp _. apply table_entry_spec.
Qed.

(** C1. For a primary-format source the table has 256 entries; the entry
    of a codepoint is the primary parser's glyph when the mapping has the
    codepoint, otherwise the fallback table's glyph at that codepoint when
    the fallback parsed, otherwise sixteen zero bytes. *)
Theorem build_table_merge (fs : files) (src fb : Path) (gs : gmap Z glyph) :
  Py.lower (pathlib.suffix src) = ".bdf" ->
  parse_bdf fs src = Ok gs ->
  exists table desc fallback,
    build_glyph_table fs src (Some fb) = Ok (table, desc)
    /\ parse_asm fs fb = Ok fallback
    /\ length table = 256%nat
    /\ forall cp, (cp < 256)%nat ->
         (forall g, gs !! Z.of_nat cp = Some g -> table !! cp = Some g)
         /\ (gs !! Z.of_nat cp = None ->
             forall t, fallback = Some t ->
               exists g, t !! cp = Some g /\ table !! cp = Some g)
         /\ (gs !! Z.of_nat cp = None -> fallback = None ->
             table !! cp = Some (replicate 16 0)).
Proof.
  intros Hext Hbdf. destruct (parse_asm_total fs fb) as (fallback & Hasm & _).
  eexists _, _, fallback.
  split; [apply (build_glyph_table_bdf _ _ _ _ _ Hext Hbdf Hasm)|].
  split; [exact Hasm|].
  split; [rewrite length_map, length_seq; reflexivity|].
  intros cp Hcp. rewrite list_lookup_fmap, lookup_seq_lt by exact Hcp.
  cbn [fmap option_fmap option_map Nat.add]. unfold resolve_glyph.
  split; [|split].
  - intros g ->. reflexivity.
  - intros -> t ->.
    destruct (parse_asm_table_shape _ _ _ Hasm) as [Hlen _].
    destruct (lookup_lt_is_Some_2 t cp) as [g Hg]; [lia|].
    exists g. rewrite Hg. auto.
  - intros -> ->. reflexivity.
Qed.

(** C6, as amended. For a primary-format source the descriptor notes the
    fallback exactly when the fallback file parsed to a complete table,
    whether or not a glyph was taken from it; so a fallback that
    contributed is noted, and an absent fallback file is not. *)
Theorem descriptor_notes_fallback (fs : files) (src fb : Path)
    (gs : gmap Z glyph) :
  Py.lower (pathlib.suffix src) = ".bdf" ->
  parse_bdf fs src = Ok gs ->
  exists table desc fallback,
    build_glyph_table fs src (Some fb) = Ok (table, desc)
    /\ parse_asm fs fb = Ok fallback
    /\ (notes_fallback src desc <-> is_Some fallback)
    /\ (fallback = None -> desc = pathlib.str src +:+ " (BDF)")
    /\ (fs !! pathlib.str fb = None -> desc = pathlib.str src +:+ " (BDF)")
    /\ (fallback_contributed gs fallback -> notes_fallback src desc).
Proof.
  intros Hext Hbdf. destruct (parse_asm_total fs fb) as (fallback & Hasm & Htr).
  eexists _, _, fallback.
  split; [apply (build_glyph_table_bdf _ _ _ _ _ Hext Hbdf Hasm)|].
  split; [exact Hasm|]. rewrite Htr. unfold notes_fallback.
  assert (Hnone : fallback = None ->
                  pathlib.str src +:+ " (BDF)" +:+
                    (if bool_decide (is_Some fallback)
                     then " + ASM fallback" else "")
                  = pathlib.str src +:+ " (BDF)") by (intros ->; reflexivity).
  assert (Hsome : is_Some fallback ->
                  pathlib.str src +:+ " (BDF)" +:+
                    (if bool_decide (is_Some fallback)
                     then " + ASM fallback" else "")
                  = pathlib.str src +:+ " (BDF) + ASM fallback").
  { intros H. rewrite (bool_decide_eq_true_2 _ H). reflexivity. }
  split; [split|split; [exact Hnone|split]].
  - destruct fallback as [t|]; [eauto|].
    rewrite (Hnone eq_refl). intros H%String.app_inj. discriminate H.
  - exact Hsome.
  - intros Hf. apply Hnone. rewrite parse_asm_spec, Hf in Hasm. congruence.
  - intros (cp & t & g & _ & _ & -> & _). apply Hsome. eauto.
Qed.

(** ** The program *)

Lemma build_glyph_table_same (fs1 fs2 : files) (src fb : Path) :
  same_file fs1 fs2 src -> same_file fs1 fs2 fb ->
  build_glyph_table fs1 src (Some fb) = build_glyph_table fs2 src (Some fb).
Proof.
  unfold same_file. intros Hsrc Hfb.
  unfold build_glyph_table, parse_bdf, parse_asm, read_text, path_exists.
  rewrite Hsrc, Hfb. reflexivity.
Qed.

(** C7. With a legacy source whose parse yields no complete table, the run
    ends on the [SystemExit] carrying the diagnostic, with status 1, and
    the file system is left as it was: nothing is written. *)
Theorem legacy_source_incomplete_is_fatal (prog a1 a2 : string)
    (rest : list string) (fs : files) :
  Py.lower (pathlib.suffix (pathlib.of_string a1)) = ".asm" ->
  parse_asm fs (pathlib.of_string a1) = Ok None ->
  run (prog :: a1 :: a2 :: rest) fs
  = {| status := 1;
       raised := SystemExit (ExitMsg "Failed to parse ASM font table");
       final := {| disk := fs; stdout := "" |} |}.
Proof.
  intros Hext Hp. unfold run, main, build_glyph_table. cbn [disk].
  rewrite Hext, Hp. reflexivity.
Qed.

(** C8. With a source whose extension, in lower case, is neither [.bdf]
    nor [.asm], the run ends on the [SystemExit] that reports the
    extension, with status 1, and nothing is written. *)
Theorem unsupported_extension_is_fatal (prog a1 a2 : string)
    (rest : list string) (fs : files) :
  Py.lower (pathlib.suffix (pathlib.of_string a1)) <> ".bdf" ->
  Py.lower (pathlib.suffix (pathlib.of_string a1)) <> ".asm" ->
  run (prog :: a1 :: a2 :: rest) fs
  = {| status := 1;
       raised := SystemExit (ExitMsg
                   ("Unsupported source extension: "
                    +:+ Py.lower (pathlib.suffix (pathlib.of_string a1))));
       final := {| disk := fs; stdout := "" |} |}.
Proof.
  intros Hbdf%String.eqb_neq Hasm%String.eqb_neq.
  unfold run, main, build_glyph_table. cbn [disk].
  rewrite Hbdf, Hasm. reflexivity.
Qed.

(** C9. Two runs with the same arguments, on file systems that agree on
    the source file and on the fallback file, end alike: same status, same
    exception, same standard output, and either both write nothing or both
    write the same text to the same output path. *)
Theorem run_deterministic (argv : list string) (fs1 fs2 : files) :
  (forall src, source_arg argv = Some src -> same_file fs1 fs2 src) ->
  same_file fs1 fs2 (fallback_arg argv) ->
  status (run argv fs1) = status (run argv fs2)
  /\ raised (run argv fs1) = raised (run argv fs2)
  /\ stdout (final (run argv fs1)) = stdout (final (run argv fs2))
  /\ ((disk (final (run argv fs1)) = fs1 /\ disk (final (run argv fs2)) = fs2)
      \/ exists out text,
           disk (final (run argv fs1)) = <[out := text]> fs1
           /\ disk (final (run argv fs2)) = <[out := text]> fs2).
Proof.
  intros Hsrc Hfb. unfold run, main.
  destruct argv as [|prog [|a1 [|a2 rest]]]; try solve [cbn; auto 10].
  specialize (Hsrc _ eq_refl).
  assert (Hfb' : same_file fs1 fs2
                   match rest with
                   | a3 :: _ => pathlib.of_string a3
                   | [] => pathlib.of_string DEFAULT_FALLBACK
                   end) by (destruct rest; exact Hfb).
  cbn [disk]. rewrite (build_glyph_table_same fs1 fs2 _ _ Hsrc Hfb').
  destruct (build_glyph_table fs2 _ _) as [[table desc]|e]; cbn; eauto 10.
Qed.

(** ** The sample inputs, evaluated *)

Lemma fs_zero_lookup :
  fs_zero !! pathlib.str (pathlib.of_string "spleen.asm") = Some asm_zero_text.
Proof. reflexivity. Qed.

Lemma asm_zero_after_label :
  after_label (Py.splitlines asm_zero_text) = Some asm_zero_rest.
Proof. vm_compute. reflexivity. Qed.

Lemma asm_zero_rows : (4096 <= length (matched_rows asm_zero_rest))%nat.
Proof. apply Nat.leb_le. vm_compute. reflexivity. Qed.

Lemma fs_A_parse :
  parse_bdf fs_A (pathlib.of_string "spleen.bdf") = Ok {[ 65 := glyph_A ]}.
Proof. vm_compute. reflexivity. Qed.

Lemma fs_full_parse_bdf :
  parse_bdf fs_full (pathlib.of_string "full.bdf") = Ok full_glyphs.
Proof. vm_compute. reflexivity. Qed.

Lemma fs_full_parse_asm :
  parse_asm fs_full (pathlib.of_string DEFAULT_FALLBACK)
  = Ok (Some (replicate 256 (replicate 16 0))).
Proof. rewrite parse_asm_spec. vm_compute. reflexivity. Qed.

Lemma full_glyphs_complete (cp : nat) :
  (cp < 256)%nat -> full_glyphs !! Z.of_nat cp <> None.
Proof.
  intros Hcp.
  assert (H : forallb (fun cp => bool_decide (is_Some (full_glyphs !! Z.of_nat cp)))
                      (seq 0 256) = true) by (vm_compute; reflexivity).
  rewrite forallb_forall in H. specialize (H cp).
  rewrite in_seq, bool_decide_eq_true in H.
  destruct H as [g Hg]; [lia|]. congruence.
Qed.

(** ** The theorems at the sample inputs *)

Lemma parse_asm_full_table_witness :
  exists table,
    parse_asm fs_zero (pathlib.of_string "spleen.asm") = Ok (Some table)
    /\ length table = 256%nat
    /\ Forall (fun g => length g = 16%nat) table.
Proof.
  destruct (parse_asm_full_table fs_zero (pathlib.of_string "spleen.asm")
              asm_zero_text asm_zero_rest
              fs_zero_lookup asm_zero_after_label asm_zero_rows)
    as (table & Hp & Hlen & Hg & _).
  exists table. auto.
Defined.

Lemma build_table_merge_witness :
  Py.lower (pathlib.suffix (pathlib.of_string "spleen.bdf")) = ".bdf"
  /\ parse_bdf fs_A (pathlib.of_string "spleen.bdf") = Ok {[ 65 := glyph_A ]}
  /\ exists table desc,
       build_glyph_table fs_A (pathlib.of_string "spleen.bdf")
         (Some (pathlib.of_string DEFAULT_FALLBACK)) = Ok (table, desc)
       /\ table !! 65%nat = Some glyph_A
       /\ table !! 5%nat = Some (replicate 16 0).
Proof.
  split; [reflexivity|]. split; [exact fs_A_parse|].
  destruct (build_table_merge fs_A (pathlib.of_string "spleen.bdf")
              (pathlib.of_string DEFAULT_FALLBACK) {[ 65 := glyph_A ]}
              eq_refl fs_A_parse)
    as (table & desc & fallback & Hb & Hasm & _ & Hcp).
  exists table, desc. split; [exact Hb|]. split.
  - apply (proj1 (Hcp 65%nat ltac:(lia))). reflexivity.
  - apply (proj2 (proj2 (Hcp 5%nat ltac:(lia)))); [reflexivity|].
    rewrite parse_asm_spec in Hasm. injection Hasm as <-. reflexivity.
Defined.

Lemma parse_bdf_glyphs_16_witness :
  length glyph_A = 16%nat
  /\ exists gs g,
       parse_bdf_lines ([] ++ ["STARTCHAR A"; "ENCODING 65"; "BITMAP"; "FF"]
                           ++ ["ENDCHAR"]) = Ok gs
       /\ gs !! 65 = Some g
       /\ length g = 16%nat.
Proof.
  destruct parse_bdf_glyphs_16 as [Hall Hdef]. split.
  - apply (Hall fs_A (pathlib.of_string "spleen.bdf") {[ 65 := glyph_A ]} 65
             glyph_A fs_A_parse). reflexivity.
  - destruct (Hdef [] ["STARTCHAR A"; "ENCODING 65"; "BITMAP"; "FF"] "ENDCHAR" 65)
      as (gs & g & Hp & Hg & Hlen & _).
    + exact I.
    + repeat constructor.
    + reflexivity.
    + reflexivity.
    + reflexivity.
    + exists gs, g. auto.
Defined.

Lemma endchar_stores_pending_witness :
  exists before,
    parse_bdf_lines [] = Ok before
    /\ parse_bdf_lines ([] ++ ["STARTCHAR A"; "ENCODING 65"; "BITMAP"; "FF"]
                           ++ ["ENDCHAR"])
       = Ok (<[65 := glyph_A]> before).
Proof.
  destruct (endchar_stores_pending []
              ["STARTCHAR A"; "ENCODING 65"; "BITMAP"; "FF"] "ENDCHAR")
    as (before & Hb & Hp).
  - exact I.
  - repeat constructor.
  - reflexivity.
  - exists before. split; [exact Hb|exact Hp].
Defined.

(** C5 as stated fails: the definition below declares codepoint 65, which
    parses, and ends without a [BITMAP] line; its [ENDCHAR] line stores
    nothing under 65. *)
Lemma endchar_without_bitmap_stores_nothing :
  Py.splitlines bdf_nobitmap_text
  = [] ++ ["STARTCHAR A"; "ENCODING 65"; "FF"] ++ ["ENDCHAR"]
  /\ pending_enc ["STARTCHAR A"; "ENCODING 65"; "FF"] = Some 65
  /\ exists gs,
       parse_bdf fs_nobitmap (pathlib.of_string "nobitmap.bdf") = Ok gs
       /\ gs !! 65 = None.
Proof.
  split; [reflexivity|]. split; [reflexivity|].
  exists ∅. split; [vm_compute; reflexivity|reflexivity].
Qed.

Lemma endchar_clears_pending_witness :
  exists gs,
    parse_bdf_lines (["ENCODING 65"; "BITMAP"; "FF"] ++ ["ENDCHAR"]) = Ok gs
    /\ parse_bdf_lines (["ENCODING 65"; "BITMAP"; "FF"] ++ ["ENDCHAR"]
                          ++ ["BITMAP"; "00"; "ENDCHAR"]) = Ok gs.
Proof.
  destruct (endchar_clears_pending ["ENCODING 65"; "BITMAP"; "FF"] "ENDCHAR"
              ["BITMAP"; "00"; "ENDCHAR"]) as (gs & _ & H1 & H2).
  - reflexivity.
  - repeat constructor.
  - exists gs. split; [exact H1|exact H2].
Defined.

Lemma descriptor_notes_fallback_witness :
  fs_A !! pathlib.str (pathlib.of_string DEFAULT_FALLBACK) = None
  /\ exists table,
       build_glyph_table fs_A (pathlib.of_string "spleen.bdf")
         (Some (pathlib.of_string DEFAULT_FALLBACK))
       = Ok (table, "spleen.bdf (BDF)").
Proof.
  split; [reflexivity|].
  destruct (descriptor_notes_fallback fs_A (pathlib.of_string "spleen.bdf")
              (pathlib.of_string DEFAULT_FALLBACK) {[ 65 := glyph_A ]}
              eq_refl fs_A_parse)
    as (table & desc & fallback & Hb & _ & _ & _ & Habsent & _).
  exists table. rewrite Hb, (Habsent eq_refl). reflexivity.
Defined.

(** C6 as stated fails: with every codepoint defined by the primary file
    and a complete legacy file at the fallback path, the descriptor notes
    the fallback although no glyph of the table comes from it. *)
Lemma fallback_noted_without_contribution :
  exists table desc,
    build_glyph_table fs_full (pathlib.of_string "full.bdf")
      (Some (pathlib.of_string DEFAULT_FALLBACK)) = Ok (table, desc)
    /\ parse_bdf fs_full (pathlib.of_string "full.bdf") = Ok full_glyphs
    /\ parse_asm fs_full (pathlib.of_string DEFAULT_FALLBACK)
       = Ok (Some (replicate 256 (replicate 16 0)))
    /\ notes_fallback (pathlib.of_string "full.bdf") desc
    /\ ~ fallback_contributed full_glyphs
           (Some (replicate 256 (replicate 16 0))).
Proof.
  eexists _, _.
  split; [apply (build_glyph_table_bdf fs_full (pathlib.of_string "full.bdf")
                   (pathlib.of_string DEFAULT_FALLBACK) full_glyphs
                   (Some (replicate 256 (replicate 16 0)))
                   eq_refl fs_full_parse_bdf fs_full_parse_asm)|].
  split; [exact fs_full_parse_bdf|]. split; [exact fs_full_parse_asm|].
  split; [reflexivity|].
  intros (cp & t & g & Hcp & Hnone & _). exact (full_glyphs_complete cp Hcp Hnone).
Qed.

Lemma legacy_source_incomplete_is_fatal_witness :
  parse_asm fs_short (pathlib.of_string "short.asm") = Ok None
  /\ run ["gen_spleen.py"; "short.asm"; "out.c"] fs_short
     = {| status := 1;
          raised := SystemExit (ExitMsg "Failed to parse ASM font table");
          final := {| disk := fs_short; stdout := "" |} |}.
Proof.
  assert (H : parse_asm fs_short (pathlib.of_string "short.asm") = Ok None)
    by (vm_compute; reflexivity).
  split; [exact H|].
  apply (legacy_source_incomplete_is_fatal "gen_spleen.py" "short.asm" "out.c"
           [] fs_short eq_refl H).
Defined.

Lemma unsupported_extension_is_fatal_witness :
  run ["gen_spleen.py"; "spleen.txt"; "out.c"] fs_A
  = {| status := 1;
       raised := SystemExit (ExitMsg "Unsupported source extension: .txt");
       final := {| disk := fs_A; stdout := "" |} |}.
Proof.
  apply (unsupported_extension_is_fatal "gen_spleen.py" "spleen.txt" "out.c"
           [] fs_A); intros H; discriminate H.
Defined.

Lemma run_deterministic_witness :
  same_file fs_A (<["notes.txt" := "unrelated"]> fs_A)
    (pathlib.of_string "spleen.bdf")
  /\ status (run ["gen_spleen.py"; "spleen.bdf"; "out.c"] fs_A)
     = status (run ["gen_spleen.py"; "spleen.bdf"; "out.c"]
                 (<["notes.txt" := "unrelated"]> fs_A))
  /\ raised (run ["gen_spleen.py"; "spleen.bdf"; "out.c"] fs_A)
     = raised (run ["gen_spleen.py"; "spleen.bdf"; "out.c"]
                 (<["notes.txt" := "unrelated"]> fs_A)).
Proof.
  assert (Hsrc : same_file fs_A (<["notes.txt" := "unrelated"]> fs_A)
                   (pathlib.of_string "spleen.bdf")) by reflexivity.
  split; [exact Hsrc|].
  destruct (run_deterministic ["gen_spleen.py"; "spleen.bdf"; "out.c"] fs_A
              (<["notes.txt" := "unrelated"]> fs_A))
    as (Hs & Hr & _).
  - intros src [= <-]. exact Hsrc.
  - reflexivity.
  - split; [exact Hs|exact Hr].
Defined.

(** * Further properties *)

(** ** The parsers on any file *)

Lemma parse_asm_cases (fs : files) (path : Path) :
  (parse_asm fs path = Ok None /\ asm_no_data fs path)
  \/ (exists table, parse_asm fs path = Ok (Some table)
        /\ ~ asm_no_data fs path).
Proof.
  rewrite parse_asm_spec. unfold asm_no_data.
  destruct (fs !! pathlib.str path) as [text|]; [|left; auto].
  destruct (after_label (Py.splitlines text)) as [rest|] eqn:Hl;
    [|left; split; [reflexivity|right; eauto]].
  destruct (Nat.leb_spec 4096 (length (matched_rows rest))) as [Hn|Hn].
  - right. eexists. split; [reflexivity|].
    intros [H|(t & [= <-] & [H|(r & Hr & H)])]; try congruence.
    assert (r = rest) as -> by congruence. lia.
  - left. split; [reflexivity|]. right. eauto 10.
Qed.

(** ** The run as a whole *)

Lemma build_glyph_table_outcome (fs : files) (src fb : Path) :
  match build_glyph_table fs src (Some fb) with
  | Ok _ => source_usable fs src
  | Raise e => exit_status e = 1 /\ ~ source_usable fs src
  end.
Proof.
  unfold source_usable.
  destruct (String.eqb_spec (Py.lower (pathlib.suffix src)) ".bdf") as [Hb|Hb].
  - destruct (fs !! pathlib.str src) as [text|] eqn:Hf.
    + assert (Hp : parse_bdf fs src
                   = Ok (glyphs (fold_left bdf_step (Py.splitlines text)
                                   bdf_init)))
        by (unfold parse_bdf, read_text; rewrite Hf; cbn [rbind];
            apply parse_bdf_lines_fold).
      destruct (parse_asm_total fs fb) as (fallback & Hasm & _).
      rewrite (build_glyph_table_bdf _ _ _ _ _ Hb Hp Hasm). left. eauto.
    + unfold build_glyph_table, parse_bdf, read_text.
      rewrite Hb, Hf. cbn. split; [reflexivity|].
      intros [[_ [? ?]]|[Ha _]]; discriminate.
  - destruct (String.eqb_spec (Py.lower (pathlib.suffix src)) ".asm") as [Ha|Ha].
    + unfold build_glyph_table. rewrite Ha. cbn [String.eqb Ascii.eqb Bool.eqb].
      destruct (parse_asm_cases fs src) as [[-> Hn]|(t & -> & Hn)]; cbn.
      * split; [reflexivity|]. intros [[? _]|[_ ?]]; [congruence|tauto].
      * right. auto.
    + unfold build_glyph_table.
      apply String.eqb_neq in Hb as Hb'. apply String.eqb_neq in Ha as Ha'.
      rewrite Hb', Ha'. split; [reflexivity|]. intros [[? _]|[? _]]; congruence.
Qed.

(** X2. With fewer than two arguments after the program name the run
    prints the usage line on standard output, exits with status 1 and
    reads and writes no file. *)
Theorem run_usage (argv : list string) (fs : files) :
  (length argv < 3)%nat ->
  run argv fs
  = {| status := 1; raised := SystemExit (ExitCode 1);
       final := {| disk := fs; stdout := USAGE +:+ LF |} |}.
Proof.
  intros H. destruct argv as [|prog [|a1 [|a2 rest]]]; try reflexivity.
  cbn [length] in H. lia.
Qed.

(** X3. A run exits with status 0 only if it was given a source and an
    output argument and the source is a primary-format file that exists or
    a legacy file with a complete table; the exit status is 0 or 1. *)
Theorem run_succeeds_only_if (argv : list string) (fs : files) :
  (status (run argv fs) = 0 ->
   exists src, source_arg argv = Some src /\ is_Some (argv !! 2%nat)
               /\ source_usable fs src)
  /\ (status (run argv fs) = 0 \/ status (run argv fs) = 1).
Proof.
  destruct argv as [|prog [|a1 [|a2 rest]]];
    try (split; [discriminate|right; reflexivity]).
  unfold run, main. cbn [disk].
  pose proof (build_glyph_table_outcome fs (pathlib.of_string a1)
                match rest with
                | a3 :: _ => pathlib.of_string a3
                | [] => pathlib.of_string DEFAULT_FALLBACK
                end) as H.
  destruct (build_glyph_table fs _ _) as [[table desc]|e]; cbn [status].
  - split; [|left; reflexivity]. intros _.
    exists (pathlib.of_string a1). split; [reflexivity|]. split; [eauto|exact H].
  - destruct H as [-> Hn]. split; [discriminate|right; reflexivity].
Qed.


(** ** The mapping of the primary parser *)

Lemma bdf_step_other (st : bdf_state) (raw : string) (cp : Z) :
  enc st <> Some cp -> ~ declares cp raw ->
  enc (bdf_step st raw) <> Some cp
  /\ glyphs (bdf_step st raw) !! cp = glyphs st !! cp.
Proof.
  intros Hst Hraw. unfold bdf_step, declares in *.
  destruct (is_encoding raw); [split; [tauto|reflexivity]|].
  destruct (is_bitmap raw); [auto|].
  destruct (is_endchar raw); cbn [enc glyphs].
  - split; [discriminate|]. destruct (enc st) as [e|]; [|reflexivity].
    destruct (collecting st); [|reflexivity].
    apply lookup_insert_ne. congruence.
  - destruct (collecting st && fullmatch_hex2 (Py.strip raw)); auto.
Qed.

Lemma bdf_fold_other (rest : list string) (st : bdf_state) (cp : Z) :
  enc st <> Some cp -> Forall (fun l => ~ declares cp l) rest ->
  glyphs (fold_left bdf_step rest st) !! cp = glyphs st !! cp.
Proof.
  revert st. induction rest as [|x rest IH]; intros st Hst H; [reflexivity|].
  apply Forall_cons in H as [Hx Hrest]. cbn [fold_left].
  destruct (bdf_step_other st x cp Hst Hx) as [He Hg].
  rewrite (IH _ He Hrest). exact Hg.
Qed.

(** X5. The last definition of a codepoint wins: a definition that stores
    a glyph under [cp] replaces whatever the mapping held there, and the
    final mapping still holds that glyph when no later [ENCODING] line
    declares [cp]; lines after it that declare other codepoints, or none,
    cannot change it. *)
Theorem bdf_last_definition_wins (pre block : list string) (e : string)
    (post : list string) (cp : Z) :
  definition_start pre ->
  Forall (fun l => is_endchar l = false) block ->
  is_endchar e = true ->
  pending_enc block = Some cp ->
  seen_bitmap block = true ->
  Forall (fun l => ~ declares cp l) post ->
  exists gs,
    parse_bdf_lines (pre ++ block ++ [e] ++ post) = Ok gs
    /\ gs !! cp = Some (glyph_of (collected_rows block)).
Proof.
  intros Hpre Hblock He Henc Hbm Hpost. eexists. split.
  - apply parse_bdf_lines_fold.
  - replace (pre ++ block ++ [e] ++ post) with ((pre ++ block ++ [e]) ++ post)
      by (rewrite <- !app_assoc; reflexivity).
    rewrite fold_left_app.
    destruct (bdf_endchar_resets
                (fold_left bdf_step (pre ++ block) bdf_init) e He) as [gs Hgs].
    assert (Hst : fold_left bdf_step (pre ++ block ++ [e]) bdf_init
                  = bdf_reset gs)
      by (rewrite app_assoc, fold_left_app; exact Hgs).
    rewrite bdf_fold_other; [|rewrite Hst; discriminate|exact Hpost].
    rewrite (bdf_definition_end pre block e Hpre Hblock He), Henc, Hbm.
    apply lookup_insert_eq.
Qed.

(** X6. A definition leaves every other codepoint of the mapping as it
    was before the definition. *)
Theorem bdf_definition_frame (pre block : list string) (e : string)
    (cp : Z) :
  definition_start pre ->
  Forall (fun l => is_endchar l = false) block ->
  is_endchar e = true ->
  pending_enc block <> Some cp ->
  exists before after,
    parse_bdf_lines pre = Ok before
    /\ parse_bdf_lines (pre ++ block ++ [e]) = Ok after
    /\ after !! cp = before !! cp.
Proof.
  intros Hpre Hblock He Hcp. eexists _, _.
  split; [apply parse_bdf_lines_fold|]. split; [apply parse_bdf_lines_fold|].
  rewrite (bdf_definition_end pre block e Hpre Hblock He).
  destruct (pending_enc block) as [cp'|]; [|reflexivity].
  destruct (seen_bitmap block); [|reflexivity].
  apply lookup_insert_ne. congruence.
Qed.

Lemma bdf_step_keys (lines : list string) (st : bdf_state) (raw : string) :
  raw ∈ lines ->
  (forall cp, enc st = Some cp -> exists l, l ∈ lines /\ declares cp l) ->
  (forall cp, is_Some (glyphs st !! cp) -> exists l, l ∈ lines /\ declares cp l) ->
  (forall cp, enc (bdf_step st raw) = Some cp ->
     exists l, l ∈ lines /\ declares cp l)
  /\ (forall cp, is_Some (glyphs (bdf_step st raw) !! cp) ->
        exists l, l ∈ lines /\ declares cp l).
Proof.
  intros Hraw Henc Hgl. unfold bdf_step.
  destruct (is_encoding raw) eqn:He.
  { split; [|exact Hgl]. cbn [enc]. intros cp Hcp. exists raw.
    split; [exact Hraw|]. split; assumption. }
  destruct (is_bitmap raw); [auto|].
  destruct (is_endchar raw); cbn [enc glyphs].
  - split; [discriminate|]. intros cp Hcp.
    destruct (enc st) as [e|] eqn:Hst; [|auto].
    destruct (collecting st); [|auto].
    destruct (decide (e = cp)) as [->|Hne]; [auto|].
    rewrite lookup_insert_ne in Hcp by exact Hne. auto.
  - destruct (collecting st && fullmatch_hex2 (Py.strip raw)); auto.
Qed.

(** X7. The mapping never holds a codepoint the input does not declare:
    every key of the result is the integer of some [ENCODING] line. *)
Theorem parse_bdf_keys_declared (lines : list string) (gs : gmap Z glyph)
    (cp : Z) :
  parse_bdf_lines lines = Ok gs ->
  is_Some (gs !! cp) ->
  exists l, l ∈ lines /\ declares cp l.
Proof.
  rewrite parse_bdf_lines_fold. intros [= <-].
  assert (H : forall rest st,
             (forall l, l ∈ rest -> l ∈ lines) ->
             (forall cp, enc st = Some cp -> exists l, l ∈ lines /\ declares cp l) ->
             (forall cp, is_Some (glyphs st !! cp) ->
                exists l, l ∈ lines /\ declares cp l) ->
             forall cp, is_Some (glyphs (fold_left bdf_step rest st) !! cp) ->
               exists l, l ∈ lines /\ declares cp l).
  { induction rest as [|x rest IH]; intros st Hin He Hg; [exact Hg|].
    cbn [fold_left].
    destruct (bdf_step_keys lines st x (Hin x (list_elem_of_here _ _)) He Hg)
      as [He' Hg'].
    apply IH; [|exact He'|exact Hg'].
    intros l Hl. apply Hin. apply list_elem_of_further, Hl. }
  apply (H lines bdf_init); [auto|discriminate|].
  intros cp' [g Hg]. unfold bdf_init in Hg. cbn [glyphs] in Hg.
  rewrite lookup_empty in Hg. discriminate.
Qed.

(** ** Lines the parsers do not look at *)

Lemma lstrip_idem (s : string) : Py.lstrip (Py.lstrip s) = Py.lstrip s.
Proof.
  induction s as [|c s IH]; [reflexivity|]. cbn [Py.lstrip].
  destruct (Py.isspace c) eqn:Hc; [exact IH|]. cbn [Py.lstrip].
  rewrite Hc. reflexivity.
Qed.

Lemma rstrip_idem (s : string) : Py.rstrip (Py.rstrip s) = Py.rstrip s.
Proof.
  induction s as [|c s IH]; [reflexivity|]. cbn [Py.rstrip].
  destruct (Py.rstrip s) as [|a r] eqn:Hr.
  - destruct (Py.isspace c) eqn:Hc; [reflexivity|].
    cbn [Py.rstrip]. rewrite Hc. reflexivity.
  - cbn [Py.rstrip]. cbn [Py.rstrip] in IH. rewrite IH. reflexivity.
Qed.

Lemma rstrip_lstrip (s : string) :
  Py.rstrip (Py.lstrip s) = Py.lstrip (Py.rstrip s).
Proof.
  induction s as [|c s IH]; [reflexivity|]. cbn [Py.lstrip Py.rstrip].
  destruct (Py.isspace c) eqn:Hc.
  - rewrite IH. destruct (Py.rstrip s) as [|a r]; [reflexivity|].
    cbn [Py.lstrip]. rewrite Hc. reflexivity.
  - cbn [Py.rstrip]. destruct (Py.rstrip s) as [|a r];
      rewrite ?Hc; cbn [Py.lstrip]; rewrite Hc; reflexivity.
Qed.

Lemma strip_idem (s : string) : Py.strip (Py.strip s) = Py.strip s.
Proof.
  unfold Py.strip.
  rewrite (rstrip_lstrip (Py.rstrip s)), rstrip_idem. apply lstrip_idem.
Qed.

Lemma bdf_step_strip (st : bdf_state) (raw : string) :
  bdf_step st (Py.strip raw) = bdf_step st raw.
Proof.
  unfold bdf_step, is_encoding, is_bitmap, is_endchar, encoding_value.
  rewrite strip_idem. reflexivity.
Qed.

Lemma bdf_step_irrelevant (st : bdf_state) (raw : string) :
  bdf_relevant raw = false -> bdf_step st raw = st.
Proof.
  unfold bdf_relevant, bdf_step.
  intros [[[-> ->]%orb_false_iff ->]%orb_false_iff ->]%orb_false_iff.
  rewrite andb_false_r. reflexivity.
Qed.

(** X8. The primary parser reads a line only through its stripped text and
    reacts only to keyword lines and rows: stripping every line, or
    removing every other line ([STARTCHAR], comments, properties, blank
    lines, malformed rows), gives the same mapping. *)
Theorem parse_bdf_ignores_noise (lines : list string) :
  parse_bdf_lines (map Py.strip lines) = parse_bdf_lines lines
  /\ parse_bdf_lines (List.filter bdf_relevant lines) = parse_bdf_lines lines.
Proof.
  rewrite !parse_bdf_lines_fold. split; f_equal; f_equal.
  - generalize bdf_init. induction lines as [|l lines IH]; intros st;
      [reflexivity|].
    cbn [map fold_left]. rewrite bdf_step_strip. apply IH.
  - generalize bdf_init. induction lines as [|l lines IH]; intros st;
      [reflexivity|].
    cbn [List.filter fold_left]. destruct (bdf_relevant l) eqn:Hl.
    + cbn [fold_left]. apply IH.
    + rewrite (bdf_step_irrelevant st l Hl). apply IH.
Qed.

Lemma after_label_skip (pre : list string) (lab : string) (rest : list string) :
  Forall (fun l => is_label l = false) pre -> is_label lab = true ->
  after_label (pre ++ lab :: rest) = Some rest.
Proof.
  intros Hpre Hlab. induction Hpre as [|l pre Hl _ IH]; cbn [app after_label].
  - rewrite Hlab. reflexivity.
  - rewrite Hl. exact IH.
Qed.

(** X9. The legacy parser looks at nothing before the first label line and
    at nothing after the 4096th matching row: lines before the label, even
    rows, and any content after the table do not change the result. *)
Theorem parse_asm_ignores_outside (pre : list string) (lab : string)
    (rest extra : list string) :
  Forall (fun l => is_label l = false) pre ->
  is_label lab = true ->
  (4096 <= length (matched_rows rest))%nat ->
  parse_asm_lines (pre ++ lab :: rest ++ extra) = parse_asm_lines (lab :: rest)
  /\ exists table, parse_asm_lines (lab :: rest) = Ok (Some table).
Proof.
  intros Hpre Hlab Hn. rewrite !parse_asm_lines_spec.
  rewrite (after_label_skip pre lab (rest ++ extra) Hpre Hlab).
  change (lab :: rest) with ([] ++ lab :: rest).
  rewrite (after_label_skip [] lab rest (List.Forall_nil _) Hlab).
  unfold row_values, matched_rows in *. rewrite omap_app, length_app, map_app.
  rewrite take_app_le by (rewrite length_map; exact Hn).
  destruct (Nat.leb_spec 4096 (length (omap ROW_RE_match rest))); [|lia].
  destruct (Nat.leb_spec 4096 (length (omap ROW_RE_match rest)
                               + length (omap ROW_RE_match extra))); [|lia].
  split; [reflexivity|eauto].
Qed.

(** ** The table *)

Lemma build_glyph_table_ok (fs : files) (src fb : Path) (table : list glyph)
    (desc : string) :
  build_glyph_table fs src (Some fb) = Ok (table, desc) ->
  (Py.lower (pathlib.suffix src) = ".bdf"
   /\ exists gs fallback,
        parse_bdf fs src = Ok gs /\ parse_asm fs fb = Ok fallback
        /\ table = map (resolve_glyph gs fallback) (seq 0 256))
  \/ (Py.lower (pathlib.suffix src) = ".asm"
      /\ parse_asm fs src = Ok (Some table)
      /\ desc = pathlib.str src +:+ " (ASM)").
Proof.
  destruct (String.eqb_spec (Py.lower (pathlib.suffix src)) ".bdf") as [Hb|Hb].
  - destruct (parse_asm_total fs fb) as (fallback & Hasm & _).
    destruct (parse_bdf fs src) as [gs|e] eqn:Hp.
    + rewrite (build_glyph_table_bdf _ _ _ _ _ Hb Hp Hasm). intros [= <- _].
      left. eauto 10.
    + unfold build_glyph_table. rewrite Hb, Hp. discriminate.
  - unfold build_glyph_table. apply String.eqb_neq in Hb as ->.
    destruct (String.eqb_spec (Py.lower (pathlib.suffix src)) ".asm") as [Ha|Ha];
      [|discriminate].
    destruct (parse_asm fs src) as [[t|]|e]; cbn; try discriminate.
    intros [= <- <-]. right. auto.
Qed.

Lemma row_values_bytes (lines : list string) :
  Forall (fun b => 0 <= b < 256) (row_values lines).
Proof.
  unfold row_values. apply Forall_fmap, Forall_forall. intros d Hd.
  apply list_elem_of_omap in Hd as (line & _ & Hm). cbn.
  apply ROW_RE_match_shape in Hm as (c0&c1&c2&c3&c4&c5&c6&c7&->&Hb).
  apply (int_bin_digits _ _ _ _ _ _ _ _ Hb).
Qed.

Lemma parse_asm_table_bytes (fs : files) (path : Path) (table : list glyph) :
  parse_asm fs path = Ok (Some table) -> Forall byte_glyph table.
Proof.
  intros Hp. destruct (parse_asm_table_shape _ _ _ Hp) as [_ Hlen].
  revert Hp. rewrite parse_asm_spec.
  destruct (fs !! pathlib.str path) as [text|]; [|discriminate].
  destruct (after_label (Py.splitlines text)) as [rest|]; [|discriminate].
  destruct (4096 <=? length (matched_rows rest))%nat; [|discriminate].
  intros [= <-]. apply Forall_forall. intros g Hg. split.
  - rewrite Forall_forall in Hlen. apply Hlen, Hg.
  - unfold chunks in Hg. apply list_elem_of_fmap in Hg as (i & -> & _).
    unfold Py.slice. apply Forall_take, Forall_drop, Forall_take.
    apply row_values_bytes.
Qed.

Lemma glyph_of_bytes (rows : list string) :
  Forall (fun r => fullmatch_hex2 r = true) rows -> byte_glyph (glyph_of rows).
Proof.
  intros H. split; [apply glyph_of_length|]. unfold glyph_of.
  apply Forall_app. split.
  - apply Forall_take, Forall_fmap. eapply Forall_impl; [exact H|].
    intros r Hr. apply (int_hex2 r Hr).
  - apply Forall_replicate. lia.
Qed.

Lemma bdf_fold_bytes (lines : list string) (st : bdf_state) :
  rows_ok st -> map_Forall (fun _ g => byte_glyph g) (glyphs st) ->
  map_Forall (fun _ g => byte_glyph g) (glyphs (fold_left bdf_step lines st)).
Proof.
  revert st. induction lines as [|l lines IH]; intros st Hok H; [exact H|].
  cbn [fold_left]. apply IH; [apply (parse_bdf_body_step st l Hok)|].
  unfold bdf_step.
  destruct (is_encoding l); [exact H|]. destruct (is_bitmap l); [exact H|].
  destruct (is_endchar l).
  - cbn [glyphs]. destruct (enc st); [|exact H].
    destruct (collecting st); [|exact H].
    apply map_Forall_insert_2; [apply glyph_of_bytes, Hok|exact H].
  - destruct (collecting st && fullmatch_hex2 (Py.strip l)); exact H.
Qed.

Lemma parse_bdf_bytes (fs : files) (path : Path) (gs : gmap Z glyph) :
  parse_bdf fs path = Ok gs -> map_Forall (fun _ g => byte_glyph g) gs.
Proof.
  unfold parse_bdf. intros (text & _ & Hp)%rbind_ok.
  rewrite parse_bdf_lines_fold in Hp. injection Hp as <-.
  apply bdf_fold_bytes; [constructor|apply map_Forall_empty].
Qed.

(** X10. Whatever [build_glyph_table] returns is a complete table: 256
    glyphs, each of exactly 16 values, each value a byte from 0 to 255. *)
Theorem build_glyph_table_shape (fs : files) (src fb : Path)
    (table : list glyph) (desc : string) :
  build_glyph_table fs src (Some fb) = Ok (table, desc) ->
  length table = 256%nat /\ Forall byte_glyph table.
Proof.
  intros [(_ & gs & fallback & Hp & Hasm & ->)|(_ & Hp & _)]%build_glyph_table_ok.
  - split; [rewrite length_map, length_seq; reflexivity|].
    apply Forall_fmap, Forall_forall. intros cp _. cbn. unfold resolve_glyph.
    destruct (gs !! Z.of_nat cp) as [g|] eqn:Hg;
      [apply (parse_bdf_bytes _ _ _ Hp _ _ Hg)|].
    assert (Hz : byte_glyph (replicate 16 0))
      by (split; [reflexivity|apply Forall_replicate; lia]).
    destruct fallback as [t|]; [|exact Hz].
    destruct (t !! cp) as [g|] eqn:Ht; [|exact Hz]. cbn.
    pose proof (parse_asm_table_bytes _ _ _ Hasm) as Hb.
    rewrite Forall_forall in Hb. apply Hb. eapply list_elem_of_lookup_2, Ht.
  - split; [apply (parse_asm_table_shape _ _ _ Hp)|].
    apply (parse_asm_table_bytes _ _ _ Hp).
Qed.

(** X11. Only the codepoints 0 to 255 of the primary mapping reach the
    table: two primary files whose mappings agree on that range, with the
    same fallback file, give the same table and the same descriptor,
    whatever they define outside the range. *)
Theorem build_glyph_table_range (fs1 fs2 : files) (src fb : Path)
    (gs1 gs2 : gmap Z glyph) :
  Py.lower (pathlib.suffix src) = ".bdf" ->
  parse_bdf fs1 src = Ok gs1 ->
  parse_bdf fs2 src = Ok gs2 ->
  (forall cp, 0 <= cp < 256 -> gs1 !! cp = gs2 !! cp) ->
  same_file fs1 fs2 fb ->
  build_glyph_table fs1 src (Some fb) = build_glyph_table fs2 src (Some fb).
Proof.
  intros Hext Hp1 Hp2 Hgs Hfb.
  destruct (parse_asm_total fs1 fb) as (fallback & Hasm1 & _).
  assert (Hasm2 : parse_asm fs2 fb = Ok fallback).
  { rewrite <- Hasm1. unfold parse_asm, path_exists, read_text.
    unfold same_file in Hfb. rewrite Hfb. reflexivity. }
  rewrite (build_glyph_table_bdf _ _ _ _ _ Hext Hp1 Hasm1).
  rewrite (build_glyph_table_bdf _ _ _ _ _ Hext Hp2 Hasm2).
  f_equal. f_equal. apply map_ext_in. intros cp Hcp%in_seq.
  unfold resolve_glyph. rewrite Hgs by lia. reflexivity.
Qed.

(** ** Patterns and tokens *)

Lemma lstrip_decompose (s : string) :
  exists ws, all_space ws = true /\ s = ws +:+ Py.lstrip s.
Proof.
  induction s as [|c s (ws & Hws & Hs)]; [exists ""; auto|].
  cbn [Py.lstrip]. destruct (Py.isspace c) eqn:Hc.
  - exists (String c ws). split.
    + unfold all_space in *. cbn [list_ascii_of_string forallb].
      rewrite Hc. exact Hws.
    + exact (f_equal (String c) Hs).
  - exists "". auto.
Qed.

Lemma lstrip_app_space (ws s : string) :
  all_space ws = true -> Py.lstrip (ws +:+ s) = Py.lstrip s.
Proof.
  unfold all_space. induction ws as [|c ws IH]; [reflexivity|].
  cbn [list_ascii_of_string forallb]. intros [Hc H]%andb_true_iff.
  change (String c ws +:+ s) with (String c (ws +:+ s)).
  cbn [Py.lstrip]. rewrite Hc. apply IH, H.
Qed.

Lemma is_bin_not_space (c : ascii) : is_bin c = true -> Py.isspace c = false.
Proof. intros [-> | ->]%is_bin_cases; reflexivity. Qed.

(** X12. [ROW_RE_match] accepts exactly the lines of the pattern
    [^\s*db\s*([01]{8})b]: optional whitespace, [db], optional whitespace,
    eight binary digits, [b], then anything; and it returns the digits. *)
Theorem ROW_RE_match_iff (line d : string) :
  ROW_RE_match line = Some d
  <-> exists ws1 ws2 tail,
        all_space ws1 = true /\ all_space ws2 = true
        /\ String.length d = 8%nat
        /\ forallb is_bin (list_ascii_of_string d) = true
        /\ line = ws1 +:+ "db" +:+ ws2 +:+ d +:+ "b" +:+ tail.
Proof.
  split.
  - unfold ROW_RE_match.
    destruct (lstrip_decompose line) as (ws1 & Hws1 & Hline).
    destruct (Py.lstrip line) as [|a [|b rest]]; try discriminate.
    { destruct a as [[] [] [] [] [] [] [] []]; discriminate. }
    destruct a as [[] [] [] [] [] [] [] []]; try discriminate.
    destruct b as [[] [] [] [] [] [] [] []]; try discriminate.
    destruct (lstrip_decompose rest) as (ws2 & Hws2 & Hrest).
    destruct (Py.lstrip rest)
      as [|c0 [|c1 [|c2 [|c3 [|c4 [|c5 [|c6 [|c7 [|c8 tl]]]]]]]]];
      try discriminate.
    destruct c8 as [[] [] [] [] [] [] [] []]; try discriminate.
    destruct (forallb is_bin [c0; c1; c2; c3; c4; c5; c6; c7]) eqn:Hb;
      try discriminate.
    intros [= <-]. exists ws1, ws2, tl.
    split; [exact Hws1|]. split; [exact Hws2|]. split; [reflexivity|].
    split; [exact Hb|]. rewrite Hline, Hrest. reflexivity.
  - intros (ws1 & ws2 & tail & Hws1 & Hws2 & Hlen & Hb & ->).
    destruct d as [|c0 [|c1 [|c2 [|c3 [|c4 [|c5 [|c6 [|c7 [|c8 d]]]]]]]]];
      try discriminate Hlen.
    set (digits := String c0 (String c1 (String c2 (String c3 (String c4
                     (String c5 (String c6 (String c7 "")))))))) in *.
    set (rest := ws2 +:+ digits +:+ "b" +:+ tail).
    assert (E1 : Py.lstrip (ws1 +:+ "db" +:+ rest)
                 = String "d" (String "b" rest))
      by (rewrite (lstrip_app_space _ _ Hws1); reflexivity).
    assert (Hc0 : Py.isspace c0 = false).
    { apply is_bin_not_space. unfold digits in Hb.
      cbn [list_ascii_of_string forallb] in Hb.
      apply andb_true_iff in Hb as [Hc0 _]. exact Hc0. }
    assert (E2 : Py.lstrip rest
                 = String c0 (String c1 (String c2 (String c3 (String c4
                     (String c5 (String c6 (String c7 (String "b" tail))))))))).
    { unfold rest. rewrite (lstrip_app_space _ _ Hws2).
      change (digits +:+ "b" +:+ tail)
        with (String c0 (String c1 (String c2 (String c3 (String c4
                (String c5 (String c6 (String c7 (String "b" tail))))))))).
      cbn [Py.lstrip]. rewrite Hc0. reflexivity. }
    unfold ROW_RE_match. rewrite E1. cbn beta iota. rewrite E2. cbn beta iota.
    unfold digits in Hb. cbn [list_ascii_of_string] in Hb.
    rewrite Hb. reflexivity.
Qed.

(** X13. The emitter writes a byte as exactly two hexadecimal digits that
    denote it: the text is a row the primary parser accepts, and read back
    with [int(text, 16)], with or without the [0x] the emitter puts before
    it, it gives the byte again. *)
Theorem format_02X_round_trip (b : Z) :
  0 <= b < 256 ->
  fullmatch_hex2 (Py.format_02X b) = true
  /\ Py.int (Py.format_02X b) 16 = Ok b
  /\ Py.int ("0x" +:+ Py.format_02X b) 16 = Ok b.
Proof.
  intros Hb.
  assert (H : forallb
                (fun n =>
                   let t := Py.format_02X (Z.of_nat n) in
                   fullmatch_hex2 t
                   && match Py.int t 16 with
                      | Ok v => v =? Z.of_nat n
                      | Raise _ => false
                      end
                   && match Py.int ("0x" +:+ t) 16 with
                      | Ok v => v =? Z.of_nat n
                      | Raise _ => false
                      end)
                (seq 0 256) = true) by (vm_compute; reflexivity).
  rewrite forallb_forall in H. specialize (H (Z.to_nat b)).
  rewrite in_seq, Z2Nat.id in H by lia. cbn zeta in H.
  specialize (H ltac:(lia)).
  apply andb_true_iff in H as [H12 H3].
  apply andb_true_iff in H12 as [H1 H2].
  split; [exact H1|]. split.
  - destruct (Py.int (Py.format_02X b) 16) as [v|e]; [|discriminate].
    apply Z.eqb_eq in H2. congruence.
  - destruct (Py.int ("0x" +:+ Py.format_02X b) 16) as [v|e]; [|discriminate].
    apply Z.eqb_eq in H3. congruence.
Qed.

Lemma prefix_app (p s : string) :
  String.prefix p s = true -> exists t, s = p +:+ t.
Proof.
  revert s. induction p as [|a p IH]; intros s H; [exists s; reflexivity|].
  destruct s as [|b s]; [discriminate|]. cbn [String.prefix] in H.
  destruct (ascii_dec a b) as [->|]; [|discriminate].
  destruct (IH s H) as [t ->]. exists t. reflexivity.
Qed.

Lemma split_from_no_word (cur s : string) :
  Py.split_from cur s = [] -> cur = "".
Proof.
  revert cur. induction s as [|c s IH]; intros cur H; cbn [Py.split_from] in H.
  - destruct (String.eqb_spec cur ""); [assumption|discriminate].
  - destruct (Py.isspace c).
    + destruct (String.eqb_spec cur ""); [assumption|discriminate].
    + apply IH in H. destruct cur; discriminate.
Qed.

Lemma split_from_nil (cur s : string) :
  Py.split_from cur s = [] -> all_space s = true.
Proof.
  unfold all_space. revert cur. induction s as [|c s IH]; intros cur H;
    [reflexivity|].
  cbn [Py.split_from] in H. cbn [list_ascii_of_string forallb].
  destruct (Py.isspace c).
  - destruct (String.eqb cur ""); [|discriminate]. apply (IH _ H).
  - apply split_from_no_word in H. destruct cur; discriminate.
Qed.

Lemma all_space_rstrip (s : string) : all_space s = true -> Py.rstrip s = "".
Proof.
  unfold all_space. induction s as [|c s IH]; [reflexivity|].
  cbn [list_ascii_of_string forallb Py.rstrip].
  intros [Hc H]%andb_true_iff. rewrite (IH H), Hc. reflexivity.
Qed.

Lemma rstrip_strip (s : string) : Py.rstrip (Py.strip s) = Py.strip s.
Proof. unfold Py.strip. rewrite rstrip_lstrip, rstrip_idem. reflexivity. Qed.

(** X14. On an [ENCODING] line the indexing [line.split()[1]] never fails:
    the stripped line always has a second word, so the codepoint is absent
    only when [int] rejects that word. *)
Theorem encoding_line_has_token (raw : string) :
  is_encoding raw = true ->
  exists tok words,
    Py.split (Py.strip raw) = "ENCODING" :: tok :: words
    /\ encoding_value raw
       = match Py.int tok 10 with
         | Ok v => Some v
         | Raise _ => None
         end.
Proof.
  unfold is_encoding, Py.startswith. intros (t & Ht)%prefix_app.
  assert (Hs : Py.split (Py.strip raw) = "ENCODING" :: Py.split_from "" t)
    by (rewrite Ht; reflexivity).
  destruct (Py.split_from "" t) as [|tok words] eqn:Hw.
  - exfalso. apply split_from_nil, all_space_rstrip in Hw.
    pose proof (rstrip_strip raw) as Hr. rewrite Ht in Hr.
    change ("ENCODING " +:+ t)
      with (String "E" (String "N" (String "C" (String "O" (String "D"
              (String "I" (String "N" (String "G" (String " " t)))))))))
      in Hr.
    cbn [Py.rstrip] in Hr. rewrite Hw in Hr. discriminate Hr.
  - exists tok, words. split; [exact Hs|].
    unfold encoding_value. rewrite Hs. reflexivity.
Qed.

(** ** The emitted text *)

Lemma append_cons (c : ascii) (s t : string) :
  String c s +:+ t = String c (s +:+ t).
Proof. reflexivity. Qed.

Lemma append_nil_r (s : string) : s +:+ "" = s.
Proof.
  induction s as [|c s IH]; [reflexivity|]. rewrite append_cons, IH. reflexivity.
Qed.

Lemma append_assoc (a b c : string) : (a +:+ b) +:+ c = a +:+ b +:+ c.
Proof.
  induction a as [|x a IH]; [reflexivity|]. rewrite !append_cons, IH. reflexivity.
Qed.

Lemma no_break_app (a b : string) :
  no_break (a +:+ b) = no_break a && no_break b.
Proof.
  unfold no_break. induction a as [|x a IH]; [reflexivity|].
  rewrite append_cons. cbn [list_ascii_of_string forallb].
  rewrite IH. apply andb_assoc.
Qed.

Lemma upper_hex_no_break (u : Hexadecimal.uint) :
  no_break (Py.upper_hex u) = true.
Proof. induction u; [reflexivity|exact IHu..]. Qed.

Lemma format_02X_no_break (n : Z) : no_break (Py.format_02X n) = true.
Proof.
  unfold Py.format_02X.
  destruct (n <? 0); [|destruct (_ <? _)%nat];
    rewrite ?no_break_app, upper_hex_no_break; reflexivity.
Qed.

Lemma join_no_break (l : list string) :
  Forall (fun x => no_break x = true) l -> no_break (Py.join ", " l) = true.
Proof.
  induction 1 as [|x l Hx Hl IH]; [reflexivity|]. cbn [Py.join].
  destruct l as [|y l]; [exact Hx|].
  rewrite !no_break_app, Hx, IH. reflexivity.
Qed.

Lemma row_line_no_break (idx : nat) (g : glyph) : no_break (row_line idx g) = true.
Proof.
  unfold row_line. rewrite !no_break_app, format_02X_no_break, join_no_break.
  - reflexivity.
  - apply Forall_fmap, Forall_forall. intros b _. unfold compose.
    rewrite no_break_app, format_02X_no_break. reflexivity.
Qed.

Lemma emit_row_line (idx : nat) (g : glyph) :
  emit_row idx g = row_line idx g +:+ LF.
Proof. unfold emit_row, row_line. rewrite !append_assoc. reflexivity. Qed.

Lemma splitlines_piece (cur s rest : string) :
  no_break s = true ->
  Py.splitlines_from cur (s +:+ rest) = Py.splitlines_from (cur +:+ s) rest.
Proof.
  unfold no_break. revert cur. induction s as [|c s IH]; intros cur H.
  - rewrite append_nil_r. reflexivity.
  - cbn [list_ascii_of_string forallb] in H.
    apply andb_true_iff in H as [Hc H]. apply negb_true_iff in Hc.
    change (String c s +:+ rest) with (String c (s +:+ rest)).
    cbn [Py.splitlines_from].
    destruct (Ascii.eqb_spec c "013") as [->|_]; [discriminate Hc|].
    rewrite Hc, (IH _ H), append_assoc. reflexivity.
Qed.

Lemma splitlines_feed (cur rest : string) :
  Py.splitlines_from cur (LF +:+ rest) = cur :: Py.splitlines_from "" rest.
Proof. reflexivity. Qed.

Lemma concat_cons (x : string) (l : list string) :
  String.concat "" (x :: l) = x +:+ String.concat "" l.
Proof. destruct l; cbn; [rewrite append_nil_r|]; reflexivity. Qed.

Lemma splitlines_rows (table : list glyph) (k : nat) (rest : string) :
  Py.splitlines_from ""
    (String.concat "" (imap (fun i => emit_row (k + i)) table) +:+ rest)
  = imap (fun i => row_line (k + i)) table ++ Py.splitlines_from "" rest.
Proof.
  revert k. induction table as [|g table IH]; intros k; [reflexivity|].
  rewrite !imap_cons, concat_cons, append_assoc, Nat.add_0_r.
  rewrite emit_row_line, append_assoc.
  rewrite (splitlines_piece _ _ _ (row_line_no_break k g)), splitlines_feed.
  cbn [app]. f_equal.
  rewrite (imap_ext _ (fun i => emit_row (S k + i)))
    by (intros i x _; cbn; f_equal; lia).
  rewrite (imap_ext (_ ∘ S) (fun i => row_line (S k + i)))
    by (intros i x _; cbn; f_equal; lia).
  apply IH.
Qed.

(** X15. The emitted text, line by line: four header lines, the second of
    which carries the descriptor, two include lines, an empty line, the
    declaration, one line per glyph in table order, each the index comment
    followed by the bytes in braces, then the closing line and the
    initialisation stub; every line ends in a line feed and nothing else
    is written. *)
Theorem emit_text_lines (table : list glyph) (desc : string) :
  no_break desc = true ->
  Py.splitlines (emit_text table desc)
  = ["/* Auto-generated Spleen 8x16 font table";
     " * Source: " +:+ desc;
     " * Generation: tools/gen_spleen.py (BSD 2-Clause upstream font)";
     " * Do not edit manually. */";
     "#include " +:+ DQ +:+ "../aurora.h" +:+ DQ;
     "#include " +:+ DQ +:+ "../include/font.h" +:+ DQ;
     "";
     "const unsigned char g_Spleen8x16[AURORA_FONT_GLYPHS][AURORA_FONT_HEIGHT] = {"]
    ++ imap row_line table
    ++ ["};"; "BOOL FontInitialize(void){ return TRUE; }"].
Proof.
  intros Hdesc. unfold Py.splitlines, emit_text, HEADER.
  rewrite !append_assoc.
  repeat first
    [ rewrite splitlines_feed
    | rewrite splitlines_piece by first [reflexivity | exact Hdesc] ].
  change (imap emit_row table) with (imap (fun i => emit_row (0 + i)) table).
  rewrite splitlines_rows.
  rewrite <- (append_nil_r LF) at 2.
  repeat first
    [ rewrite splitlines_feed
    | rewrite splitlines_piece by reflexivity ].
  reflexivity.
Qed.

Lemma build_glyph_table_desc (fs : files) (src fb : Path)
    (table : list glyph) (desc : string) :
  build_glyph_table fs src (Some fb) = Ok (table, desc) ->
  exists note, desc = pathlib.str src +:+ note /\ no_break note = true.
Proof.
  intros H. pose proof H as H'.
  apply build_glyph_table_ok in H' as [(Hb & gs & fallback & Hp & Hasm & _)|(_ & _ & ->)].
  - rewrite (build_glyph_table_bdf _ _ _ _ _ Hb Hp Hasm) in H.
    injection H as _ <-. eexists. split; [reflexivity|].
    destruct (truthy fallback); reflexivity.
  - eexists. split; reflexivity.
Qed.

(** X16. A run that exits with status 0 leaves at its output path a text
    of exactly 266 lines: its second line carries the descriptor, which
    starts with the source path, and lines 9 to 264 are the rows of a
    table of 256 glyphs of 16 bytes, in codepoint order. *)
Theorem run_output_lines (prog a1 a2 : string) (rest : list string)
    (fs : files) :
  status (run (prog :: a1 :: a2 :: rest) fs) = 0 ->
  no_break (pathlib.str (pathlib.of_string a1)) = true ->
  exists text table note,
    disk (final (run (prog :: a1 :: a2 :: rest) fs))
      !! pathlib.str (pathlib.of_string a2) = Some text
    /\ length (Py.splitlines text) = 266%nat
    /\ Py.splitlines text !! 1%nat
       = Some (" * Source: " +:+ pathlib.str (pathlib.of_string a1) +:+ note)
    /\ length table = 256%nat
    /\ Forall byte_glyph table
    /\ forall cp g, table !! cp = Some g ->
         Py.splitlines text !! (8 + cp)%nat = Some (row_line cp g).
Proof.
  intros Hs Hsrc. unfold run, main in *. cbn [disk] in *.
  destruct (build_glyph_table fs (pathlib.of_string a1) _)
    as [[table desc]|e] eqn:Hb.
  - destruct (build_glyph_table_desc _ _ _ _ _ Hb) as (note & -> & Hnote).
    destruct (build_glyph_table_shape _ _ _ _ _ Hb) as [Hlen Hbytes].
    exists (emit_text table (pathlib.str (pathlib.of_string a1) +:+ note)),
           table, note.
    cbn [final disk emit_c]. split; [apply lookup_insert_eq|].
    rewrite emit_text_lines by (rewrite no_break_app, Hsrc, Hnote; reflexivity).
    split; [|split; [reflexivity|split; [exact Hlen|split; [exact Hbytes|]]]].
    + cbn [app length]. rewrite length_app, length_imap, Hlen. reflexivity.
    + intros cp g Hg. rewrite lookup_app_r by (cbn [length]; lia).
      cbn [length]. replace (8 + cp - 8)%nat with cp by lia.
      rewrite lookup_app_l
        by (rewrite length_imap; eapply lookup_lt_Some, Hg).
      rewrite list_lookup_imap, Hg. reflexivity.
  - cbn [status] in Hs.
    pose proof (build_glyph_table_outcome fs (pathlib.of_string a1)
                  match rest with
                  | a3 :: _ => pathlib.of_string a3
                  | [] => pathlib.of_string DEFAULT_FALLBACK
                  end) as H.
    rewrite Hb in H. destruct H as [H _]. rewrite H in Hs. discriminate Hs.
Qed.

(** X17. With a legacy source the fallback plays no part: the result of
    [build_glyph_table] is the same for any fallback path and on any two
    file systems that agree on the source file. *)
Theorem build_glyph_table_legacy_alone (fs1 fs2 : files) (src fb1 fb2 : Path) :
  Py.lower (pathlib.suffix src) = ".asm" ->
  same_file fs1 fs2 src ->
  build_glyph_table fs1 src (Some fb1) = build_glyph_table fs2 src (Some fb2).
Proof.
  unfold same_file. intros Hext Hsrc.
  unfold build_glyph_table, parse_asm, path_exists, read_text.
  rewrite Hext, Hsrc. reflexivity.
Qed.

Lemma splitlines_unlines (eol : string) (lines : list string) :
  (forall cur rest,
     Py.splitlines_from cur (eol +:+ rest) = cur :: Py.splitlines_from "" rest) ->
  Forall (fun l => no_break l = true) lines ->
  Py.splitlines (unlines eol lines) = lines.
Proof.
  intros Heol H. unfold Py.splitlines, unlines.
  induction H as [|l lines Hl _ IH]; [reflexivity|].
  cbn [map]. rewrite concat_cons, append_assoc.
  rewrite (splitlines_piece _ _ _ Hl), Heol, IH. reflexivity.
Qed.

(** X18. Both parsers read a file through its lines only, and the line
    ending does not matter: a file whose lines end in a line feed and the
    same file with carriage return and line feed split into the same
    lines, so they parse alike. *)
Theorem parsers_line_endings (fs : files) (path : Path) (eol : string)
    (lines : list string) :
  eol = LF \/ eol = CRLF ->
  Forall (fun l => no_break l = true) lines ->
  fs !! pathlib.str path = Some (unlines eol lines) ->
  Py.splitlines (unlines eol lines) = lines
  /\ parse_bdf fs path = parse_bdf_lines lines
  /\ parse_asm fs path = parse_asm_lines lines.
Proof.
  intros Heol Hlines Hf.
  assert (Hs : Py.splitlines (unlines eol lines) = lines).
  { apply splitlines_unlines; [|exact Hlines].
    destruct Heol as [-> | ->]; reflexivity. }
  unfold parse_bdf, parse_asm.
  destruct (read_text_Some _ _ _ Hf) as [-> ->]. cbn [negb rbind].
  rewrite Hs. auto.
Qed.

(** ** The further properties at the sample inputs *)

Lemma fs_A_lookup :
  fs_A !! pathlib.str (pathlib.of_string "spleen.bdf") = Some bdf_A_text.
Proof. reflexivity. Qed.

Lemma fs_A_usable : source_usable fs_A (pathlib.of_string "spleen.bdf").
Proof. left. split; [reflexivity|]. rewrite fs_A_lookup. eauto. Qed.

Lemma fs_A_run_status :
  status (run ["gen_spleen.py"; "spleen.bdf"; "out.c"] fs_A) = 0.
Proof. vm_compute. reflexivity. Qed.


Lemma lines_66_other : Forall (fun l => ~ declares 65 l) lines_66.
Proof.
  repeat constructor; intros [He Hv]; vm_compute in He, Hv;
    first [discriminate He | discriminate Hv].
Qed.

Lemma block_65_pending : pending_enc block_65 <> Some 66.
Proof. vm_compute. discriminate. Qed.

Lemma bdf_A_lines_parse : parse_bdf_lines bdf_A_lines = Ok {[ 65 := glyph_A ]}.
Proof. vm_compute. reflexivity. Qed.

Lemma fs_A300_parse :
  parse_bdf fs_A300 (pathlib.of_string "spleen.bdf") = Ok glyphs_A300.
Proof. vm_compute. reflexivity. Qed.

Lemma glyphs_A300_range (cp : Z) :
  0 <= cp < 256 ->
  ({[ 65 := glyph_A ]} : gmap Z glyph) !! cp = glyphs_A300 !! cp.
Proof.
  intros H. unfold glyphs_A300. symmetry. apply lookup_insert_ne. lia.
Qed.

Lemma fs_A_build :
  build_glyph_table fs_A (pathlib.of_string "spleen.bdf")
    (Some (pathlib.of_string DEFAULT_FALLBACK))
  = Ok (map (resolve_glyph {[ 65 := glyph_A ]} None) (seq 0 256),
        "spleen.bdf (BDF)").
Proof.
  apply (build_glyph_table_bdf fs_A (pathlib.of_string "spleen.bdf")
           (pathlib.of_string DEFAULT_FALLBACK) {[ 65 := glyph_A ]} None
           eq_refl fs_A_parse).
  rewrite parse_asm_spec. reflexivity.
Qed.

Lemma run_usage_witness :
  run ["gen_spleen.py"; "spleen.bdf"] fs_A
  = {| status := 1; raised := SystemExit (ExitCode 1);
       final := {| disk := fs_A; stdout := USAGE +:+ LF |} |}.
Proof. apply run_usage. cbn [length]. lia. Defined.

Lemma run_succeeds_only_if_witness :
  status (run ["gen_spleen.py"; "spleen.bdf"; "out.c"] fs_A) = 0
  /\ exists src,
       source_arg ["gen_spleen.py"; "spleen.bdf"; "out.c"] = Some src
       /\ is_Some (["gen_spleen.py"; "spleen.bdf"; "out.c"] !! 2%nat)
       /\ source_usable fs_A src.
Proof.
  split; [exact fs_A_run_status|].
  apply (proj1 (run_succeeds_only_if ["gen_spleen.py"; "spleen.bdf"; "out.c"]
                  fs_A)).
  exact fs_A_run_status.
Defined.


Lemma bdf_last_definition_wins_witness :
  exists gs,
    parse_bdf_lines ([] ++ block_65 ++ ["ENDCHAR"] ++ lines_66) = Ok gs
    /\ gs !! 65 = Some (glyph_of (collected_rows block_65)).
Proof.
  apply (bdf_last_definition_wins [] block_65 "ENDCHAR" lines_66 65).
  - exact I.
  - repeat constructor.
  - reflexivity.
  - reflexivity.
  - reflexivity.
  - exact lines_66_other.
Defined.

Lemma bdf_definition_frame_witness :
  exists before after,
    parse_bdf_lines [] = Ok before
    /\ parse_bdf_lines ([] ++ block_65 ++ ["ENDCHAR"]) = Ok after
    /\ after !! 66 = before !! 66.
Proof.
  apply (bdf_definition_frame [] block_65 "ENDCHAR" 66).
  - exact I.
  - repeat constructor.
  - reflexivity.
  - exact block_65_pending.
Defined.

Lemma parse_bdf_keys_declared_witness :
  exists l, l ∈ bdf_A_lines /\ declares 65 l.
Proof.
  apply (parse_bdf_keys_declared bdf_A_lines {[ 65 := glyph_A ]} 65).
  - exact bdf_A_lines_parse.
  - exists glyph_A. reflexivity.
Defined.

Lemma parse_asm_ignores_outside_witness :
  parse_asm_lines (["; font"; "    db 11111111b"] ++ "spleen:" :: asm_zero_rest
                     ++ ["    db 10101010b"])
  = parse_asm_lines ("spleen:" :: asm_zero_rest)
  /\ exists table, parse_asm_lines ("spleen:" :: asm_zero_rest) = Ok (Some table).
Proof.
  apply (parse_asm_ignores_outside ["; font"; "    db 11111111b"] "spleen:"
           asm_zero_rest ["    db 10101010b"]).
  - repeat constructor.
  - reflexivity.
  - exact asm_zero_rows.
Defined.

Lemma build_glyph_table_shape_witness :
  length (map (resolve_glyph {[ 65 := glyph_A ]} None) (seq 0 256)) = 256%nat
  /\ Forall byte_glyph (map (resolve_glyph {[ 65 := glyph_A ]} None) (seq 0 256)).
Proof.
  exact (build_glyph_table_shape fs_A (pathlib.of_string "spleen.bdf")
           (pathlib.of_string DEFAULT_FALLBACK) _ _ fs_A_build).
Defined.

Lemma build_glyph_table_range_witness :
  build_glyph_table fs_A (pathlib.of_string "spleen.bdf")
    (Some (pathlib.of_string DEFAULT_FALLBACK))
  = build_glyph_table fs_A300 (pathlib.of_string "spleen.bdf")
      (Some (pathlib.of_string DEFAULT_FALLBACK)).
Proof.
  apply (build_glyph_table_range fs_A fs_A300 (pathlib.of_string "spleen.bdf")
           (pathlib.of_string DEFAULT_FALLBACK) {[ 65 := glyph_A ]} glyphs_A300).
  - reflexivity.
  - exact fs_A_parse.
  - exact fs_A300_parse.
  - exact glyphs_A300_range.
  - reflexivity.
Defined.

Lemma ROW_RE_match_iff_witness :
  ROW_RE_match "    db 00011000b ; row 3" = Some "00011000".
Proof.
  apply (proj2 (ROW_RE_match_iff "    db 00011000b ; row 3" "00011000")).
  exists "    ", " ", " ; row 3". repeat split.
Defined.

Lemma format_02X_round_trip_witness :
  fullmatch_hex2 (Py.format_02X 255) = true
  /\ Py.int (Py.format_02X 255) 16 = Ok 255
  /\ Py.int ("0x" +:+ Py.format_02X 255) 16 = Ok 255.
Proof. apply (format_02X_round_trip 255). lia. Defined.

Lemma encoding_line_has_token_witness :
  exists tok words,
    Py.split (Py.strip "  ENCODING 65 0  ") = "ENCODING" :: tok :: words
    /\ encoding_value "  ENCODING 65 0  "
       = match Py.int tok 10 with
         | Ok v => Some v
         | Raise _ => None
         end.
Proof. apply (encoding_line_has_token "  ENCODING 65 0  "). reflexivity. Defined.

Lemma emit_text_lines_witness :
  Py.splitlines (emit_text [glyph_A] "spleen.bdf (BDF)") !! 8%nat
  = Some (row_line 0 glyph_A).
Proof.
  rewrite (emit_text_lines [glyph_A] "spleen.bdf (BDF)" eq_refl). reflexivity.
Defined.

Lemma run_output_lines_witness :
  exists text table note,
    disk (final (run ["gen_spleen.py"; "spleen.bdf"; "out.c"] fs_A))
      !! pathlib.str (pathlib.of_string "out.c") = Some text
    /\ length (Py.splitlines text) = 266%nat
    /\ Py.splitlines text !! 1%nat
       = Some (" * Source: " +:+ pathlib.str (pathlib.of_string "spleen.bdf")
               +:+ note)
    /\ length table = 256%nat
    /\ Forall byte_glyph table
    /\ forall cp g, table !! cp = Some g ->
         Py.splitlines text !! (8 + cp)%nat = Some (row_line cp g).
Proof.
  apply (run_output_lines "gen_spleen.py" "spleen.bdf" "out.c" [] fs_A).
  - exact fs_A_run_status.
  - reflexivity.
Defined.

Lemma build_glyph_table_legacy_alone_witness :
  build_glyph_table fs_short (pathlib.of_string "short.asm")
    (Some (pathlib.of_string DEFAULT_FALLBACK))
  = build_glyph_table fs_short (pathlib.of_string "short.asm")
      (Some (pathlib.of_string "other.asm")).
Proof.
  apply (build_glyph_table_legacy_alone fs_short fs_short
           (pathlib.of_string "short.asm")); reflexivity.
Defined.

Lemma parsers_line_endings_witness :
  Py.splitlines (unlines CRLF bdf_A_lines) = bdf_A_lines
  /\ parse_bdf fs_crlf (pathlib.of_string "crlf.bdf") = parse_bdf_lines bdf_A_lines
  /\ parse_asm fs_crlf (pathlib.of_string "crlf.bdf") = parse_asm_lines bdf_A_lines.
Proof.
  apply (parsers_line_endings fs_crlf (pathlib.of_string "crlf.bdf") CRLF
           bdf_A_lines).
  - right. reflexivity.
  - repeat constructor.
  - reflexivity.
Defined.

(** * The parsers on a disk *)

Lemma disk_of_files_lookup (fs : files) (p : string) :
  Disk.of_files fs !! p = Disk.Text <$> fs !! p.
Proof. unfold Disk.of_files. apply lookup_fmap. Qed.

(** On the disk of a file system the parsers are those of the file system. *)
Lemma disk_of_files_parse (fs : files) (path : Path) :
  Disk.parse_asm (Disk.of_files fs) path = parse_asm fs path
  /\ Disk.parse_bdf (Disk.of_files fs) path = parse_bdf fs path.
Proof.
  unfold Disk.parse_asm, Disk.parse_bdf, Disk.path_exists, Disk.read_text,
    parse_asm, parse_bdf, path_exists, read_text.
  rewrite disk_of_files_lookup.
  destruct (fs !! pathlib.str path) as [text|]; split; reflexivity.
Qed.

Lemma parse_asm_text_cases (text : string) :
  (parse_asm_lines (Py.splitlines text) = Ok None /\ text_no_data text)
  \/ (exists table, parse_asm_lines (Py.splitlines text) = Ok (Some table)
        /\ length table = 256%nat
        /\ Forall (fun g => length g = 16%nat) table
        /\ ~ text_no_data text).
Proof.
  rewrite parse_asm_lines_spec. unfold text_no_data.
  destruct (after_label (Py.splitlines text)) as [rest|] eqn:Hl;
    [|left; auto].
  destruct (Nat.leb_spec 4096 (length (matched_rows rest))) as [Hn|Hn].
  - right. eexists. split; [reflexivity|]. split; [apply chunks_length|].
    split.
    + apply chunks_glyphs. rewrite length_take. unfold row_values.
      rewrite length_map. lia.
    + intros [H|(r & [= <-] & H)]; [discriminate H|lia].
  - left. split; [reflexivity|]. right. eauto.
Qed.

Lemma disk_parse_asm_text (d : Disk.disk) (path : Path) (text : string) :
  d !! pathlib.str path = Some (Disk.Text text) ->
  Disk.parse_asm d path = parse_asm_lines (Py.splitlines text).
Proof.
  intros H. unfold Disk.parse_asm, Disk.path_exists, Disk.read_text.
  rewrite H. reflexivity.
Qed.

(** C3. On a disk the legacy parser returns [None], not an error, exactly
    when the path does not exist or holds a text in which the label never
    occurs or fewer than 4096 rows match after it; on any other text it
    returns a table of 256 glyphs of 16 bytes; on a path that exists and
    cannot be read as text it raises the error of the read. *)
Theorem disk_parse_asm_outcome (d : Disk.disk) (path : Path) :
  (Disk.parse_asm d path = Ok None <-> disk_no_data d path)
  /\ (forall text, d !! pathlib.str path = Some (Disk.Text text) ->
        ~ text_no_data text ->
        exists table, Disk.parse_asm d path = Ok (Some table)
          /\ length table = 256%nat
          /\ Forall (fun g => length g = 16%nat) table)
  /\ (forall e, Disk.path_exists d path = true ->
        Disk.read_text d path = Raise e -> Disk.parse_asm d path = Raise e).
Proof.
  split; [|split].
  - unfold disk_no_data.
    destruct (d !! pathlib.str path) as [[text| | |]|] eqn:Hd.
    + rewrite (disk_parse_asm_text _ _ _ Hd).
      destruct (parse_asm_text_cases text) as [[-> Hn]|(t & -> & _ & _ & Hn)].
      * split; [eauto|reflexivity].
      * split; [discriminate|].
        intros [H|(text' & [= <-] & H)]; [discriminate H|tauto].
    + unfold Disk.parse_asm, Disk.path_exists, Disk.read_text. rewrite Hd.
      split; [discriminate|]. intros [H|(text & H & _)]; discriminate H.
    + unfold Disk.parse_asm, Disk.path_exists, Disk.read_text. rewrite Hd.
      split; [discriminate|]. intros [H|(text & H & _)]; discriminate H.
    + unfold Disk.parse_asm, Disk.path_exists, Disk.read_text. rewrite Hd.
      split; [discriminate|]. intros [H|(text & H & _)]; discriminate H.
    + unfold Disk.parse_asm, Disk.path_exists. rewrite Hd.
      split; [auto|reflexivity].
  - intros text Hd Hn. rewrite (disk_parse_asm_text _ _ _ Hd).
    destruct (parse_asm_text_cases text) as [[_ ?]|(t & -> & Hl & Hg & _)];
      [tauto|eauto].
  - intros e He Hr. unfold Disk.parse_asm. rewrite He, Hr. reflexivity.
Qed.

(** X1. The primary parser raises exactly when the read of the file
    raises, and then the error of the read: [FileNotFoundError] on a path
    that does not exist; on a file that reads as text, whatever the text,
    it returns a mapping: no line makes [int] or the indexing fail. *)
Theorem parse_bdf_raises_as_read (d : Disk.disk) (path : Path) :
  (forall e, Disk.parse_bdf d path = Raise e <-> Disk.read_text d path = Raise e)
  /\ (d !! pathlib.str path = None ->
      Disk.parse_bdf d path = Raise (FileNotFoundError (pathlib.str path)))
  /\ (forall text, Disk.read_text d path = Ok text ->
        exists gs, Disk.parse_bdf d path = Ok gs
                   /\ parse_bdf_lines (Py.splitlines text) = Ok gs).
Proof.
  unfold Disk.parse_bdf. split; [|split].
  - intros e. destruct (Disk.read_text d path) as [text|e'] eqn:Hr; cbn [rbind].
    + rewrite parse_bdf_lines_fold. split; discriminate.
    + split; intros [= ->]; reflexivity.
  - intros H. unfold Disk.read_text. rewrite H. reflexivity.
  - intros text ->. cbn [rbind]. rewrite parse_bdf_lines_fold. eauto.
Qed.

(** ** The sample disk *)

Lemma disk_fonts_lookup :
  disk_fonts !! pathlib.str (pathlib.of_string "spleen.asm")
  = Some (Disk.Text asm_zero_text)
  /\ disk_fonts !! pathlib.str (pathlib.of_string "fonts") = Some Disk.Directory
  /\ disk_fonts !! pathlib.str (pathlib.of_string "raw.asm")
     = Some Disk.Undecodable
  /\ disk_fonts !! pathlib.str (pathlib.of_string "missing.bdf") = None.
Proof. repeat split. Qed.

Lemma asm_zero_text_has_data : ~ text_no_data asm_zero_text.
Proof.
  intros [H|(rest & Hr & Hl)].
  - rewrite asm_zero_after_label in H. discriminate H.
  - rewrite asm_zero_after_label in Hr. injection Hr as <-.
    pose proof asm_zero_rows. lia.
Qed.

Lemma disk_fonts_exists :
  Disk.path_exists disk_fonts (pathlib.of_string "fonts") = true
  /\ Disk.path_exists disk_fonts (pathlib.of_string "raw.asm") = true.
Proof. split; reflexivity. Qed.

Lemma disk_fonts_read :
  Disk.read_text disk_fonts (pathlib.of_string "fonts")
  = Raise (IsADirectoryError "fonts")
  /\ Disk.read_text disk_fonts (pathlib.of_string "raw.asm")
     = Raise UnicodeDecodeError
  /\ Disk.read_text (Disk.of_files fs_A) (pathlib.of_string "spleen.bdf")
     = Ok bdf_A_text.
Proof. repeat split. Qed.

Lemma disk_parse_asm_outcome_witness :
  (exists table,
     Disk.parse_asm disk_fonts (pathlib.of_string "spleen.asm") = Ok (Some table)
     /\ length table = 256%nat)
  /\ Disk.parse_asm disk_fonts (pathlib.of_string "missing.bdf") = Ok None
  /\ Disk.parse_asm disk_fonts (pathlib.of_string "fonts")
     = Raise (IsADirectoryError "fonts").
Proof.
  split; [|split].
  - destruct (proj1 (proj2 (disk_parse_asm_outcome disk_fonts
                              (pathlib.of_string "spleen.asm")))
                asm_zero_text (proj1 disk_fonts_lookup) asm_zero_text_has_data)
      as (table & Hp & Hlen & _).
    exists table. auto.
  - apply (proj1 (disk_parse_asm_outcome disk_fonts
                    (pathlib.of_string "missing.bdf"))).
    left. exact (proj2 (proj2 (proj2 disk_fonts_lookup))).
  - apply (proj2 (proj2 (disk_parse_asm_outcome disk_fonts
                           (pathlib.of_string "fonts")))).
    + exact (proj1 disk_fonts_exists).
    + exact (proj1 disk_fonts_read).
Defined.

(** C3 as stated fails: the path below exists and the legacy parser
    returns neither [None] nor a table on it; it raises, on a directory
    and on a file whose bytes are not text. *)
Lemma parse_asm_unreadable_raises :
  Disk.path_exists disk_fonts (pathlib.of_string "fonts") = true
  /\ Disk.parse_asm disk_fonts (pathlib.of_string "fonts")
     = Raise (IsADirectoryError "fonts")
  /\ Disk.path_exists disk_fonts (pathlib.of_string "raw.asm") = true
  /\ Disk.parse_asm disk_fonts (pathlib.of_string "raw.asm")
     = Raise UnicodeDecodeError.
Proof. repeat split. Qed.

Lemma parse_bdf_raises_as_read_witness :
  Disk.parse_bdf disk_fonts (pathlib.of_string "fonts")
  = Raise (IsADirectoryError "fonts")
  /\ Disk.parse_bdf disk_fonts (pathlib.of_string "missing.bdf")
     = Raise (FileNotFoundError "missing.bdf")
  /\ exists gs,
       Disk.parse_bdf (Disk.of_files fs_A) (pathlib.of_string "spleen.bdf")
       = Ok gs.
Proof.
  split; [|split].
  - apply (proj1 (parse_bdf_raises_as_read disk_fonts
                    (pathlib.of_string "fonts"))).
    exact (proj1 disk_fonts_read).
  - apply (proj1 (proj2 (parse_bdf_raises_as_read disk_fonts
                           (pathlib.of_string "missing.bdf")))).
    exact (proj2 (proj2 (proj2 disk_fonts_lookup))).
  - destruct (proj2 (proj2 (parse_bdf_raises_as_read (Disk.of_files fs_A)
                              (pathlib.of_string "spleen.bdf")))
                bdf_A_text (proj2 (proj2 disk_fonts_read))) as (gs & Hp & _).
    exists gs. exact Hp.
Defined.
